(** * real-time-trading: the ranking engine and the offset seeker

    A shallow embedding of [backend/real_time_trading/real_time_trading.py]
    (class [RealTimeTrading]) and of the parts of
    [backend/real_time_trading/utils.py] it relies on
    ([get_market_open_close], [set_offsets_by_time]), followed by the rest of
    [utils.py] that has a meaning of its own ([is_core_market_minutes],
    [set_offsets_by_time_aiokafka], [camel_to_snake], [str2bytes],
    [bytes2str]) and by the two handlers of
    [backend/real_time_trading/handlers.py].

    Conventions.
    - A [UTCDateTime] is an instant, counted in microseconds since the epoch
      (the resolution of Python's [datetime]); a [timedelta(minutes=m)] is
      [m * 60_000_000].
    - A ticker's [gap] is an exact number, kept as a [Z]; the last price of a
      raw ticker is a float that may be not-a-number ([pyfloat]).
    - A Python [dict] is an association list in insertion order with unique
      keys: assigning an existing key keeps its position.
    - The Kafka producer is a trace of [effect]s, in program order, together
      with the warnings and the info lines the logger receives.
    - The functions that consult the exchange calendar come twice: as they
      run once the calendar has answered, and, named [..._raising], with the
      [DateOutOfBounds] that the calendar raises on a date outside its range
      and that nothing catches. *)

From Stdlib Require Import ZArith List Ascii String Bool Lia Sorted Permutation.
Import ListNotations.
Open Scope string_scope.
Open Scope list_scope.
Open Scope Z_scope.

(** ** Python containers *)

Module PyDict.
Section Dict.
Context {K V : Type}.
Variable eqb : K -> K -> bool.

(** [d.get(k)] *)
Fixpoint get (d : list (K * V)) (k : K) : option V :=
  match d with
  | [] => None
  | (k', v) :: r => if eqb k' k then Some v else get r k
  end.

(** [d[k] = v]: an existing key keeps its place, a new one goes last. *)
Fixpoint set (d : list (K * V)) (k : K) (v : V) : list (K * V) :=
  match d with
  | [] => [(k, v)]
  | (k', v') :: r => if eqb k' k then (k', v) :: r else (k', v') :: set r k v
  end.

(** [list(d.values())] *)
Definition values (d : list (K * V)) : list V := map snd d.

(** [list(d.keys())] *)
Definition keys (d : list (K * V)) : list K := map fst d.

End Dict.
End PyDict.

(** [l[:n]] for a Python int [n]: the first [n] elements, and for a negative
    [n] all but the last [-n]. *)
Definition slice_to {A : Type} (l : list A) (n : Z) : list A :=
  if 0 <=? n then firstn (Z.to_nat n) l
  else firstn (List.length l - Z.to_nat (- n))%nat l.

(** ** Values the engine handles *)

(** A Python float as far as the engine looks at it: not-a-number, or a number. *)
Inductive pyfloat : Type :=
| FNaN
| FNum (z : Z).

(** [math.isnan] *)
Definition isnan (x : pyfloat) : bool :=
  match x with FNaN => true | FNum _ => false end.

Definition UTCDateTime : Type := Z.

(** [timedelta(minutes=m)], in microseconds. *)
Definition timedelta_minutes (m : Z) : Z := m * 60000000.

(** [ib_insync.contract.Stock], of which the engine reads the symbol. *)
Record Stock : Type := mkStock { symbol : string }.

(** Modelled from the spec: [raw_ticker.RawTicker] is not among the sources;
    the RawEvent of the data model: a symbol, a last-trade price that may be
    not-a-number, and an event time. *)
Record RawTicker : Type := mkRawTicker {
  rt_symbol : string;
  rt_last : pyfloat;
  rt_time : UTCDateTime
}.

(** Modelled from the spec: [intraday_ticker.IntradayTicker] is not among the
    sources; the SymbolState of the data model: the contract, the reference
    baseline held alongside the state, the most recent valid price, the
    derived metric [gap] and the last-update time. *)
Record IntradayTicker : Type := mkIntradayTicker {
  contract : Stock;
  reference : Z;
  last : pyfloat;
  gap : Z;
  updated_at : option UTCDateTime
}.

(** Modelled from the spec: [top_symbol.TopSymbol] and [top_symbol.TopNSymbols]
    are not among the sources; a leaderboard snapshot is an ordered sequence
    of (symbol, metric) pairs, carried with the triggering event time. *)
Record TopSymbol : Type := mkTopSymbol {
  ts_symbol : string;
  ts_gap : Z
}.

Record TopNSymbols : Type := mkTopNSymbols {
  tns_time : UTCDateTime;
  tns_symbols : list TopSymbol
}.

Definition TopSymbol_of_ticker (t : IntradayTicker) : TopSymbol :=
  mkTopSymbol (symbol (contract t)) (gap t).

(** Modelled from the spec: [TopNSymbols.from_tickers] keeps the tickers it is
    given, in their order, as (symbol, metric) pairs. *)
Definition from_tickers (time : UTCDateTime) (tickers : list IntradayTicker)
  : TopNSymbols :=
  mkTopNSymbols time (map TopSymbol_of_ticker tickers).

Definition TopSymbol_eqb (a b : TopSymbol) : bool :=
  String.eqb (ts_symbol a) (ts_symbol b) && (ts_gap a =? ts_gap b).

Fixpoint list_eqb {A : Type} (eqb : A -> A -> bool) (l1 l2 : list A) : bool :=
  match l1, l2 with
  | [], [] => true
  | a :: r1, b :: r2 => eqb a b && list_eqb eqb r1 r2
  | _, _ => false
  end.

(** Modelled from the spec: the snapshots' [==] ([Leaderboard.equals]) is a
    structural comparison: same length, same symbol and same metric at each
    position; the event time takes no part in it. *)
Definition TopNSymbols_eqb (a b : TopNSymbols) : bool :=
  list_eqb TopSymbol_eqb (tns_symbols a) (tns_symbols b).

(** ** Ranking *)

(** One step of [list.sort(key=lambda t: t.gap)]: [t] goes before the first
    element whose key is not smaller, so that equal keys keep the order in
    which they arrive (Python's sort is stable). *)
Fixpoint insert_by_gap (t : IntradayTicker) (l : list IntradayTicker)
  : list IntradayTicker :=
  match l with
  | [] => [t]
  | h :: r => if gap t <=? gap h then t :: h :: r else h :: insert_by_gap t r
  end.

(** [tickers.sort(key=lambda t: t.gap)]: ascending by gap, stable. *)
Definition sort_by_gap (l : list IntradayTicker) : list IntradayTicker :=
  fold_right insert_by_gap [] l.

(** [RealTimeTrading.get_top_n_tickers]: the tickers with a positive gap, in
    the order of [tickers], cut at [n]. *)
Definition get_top_n_tickers (time : UTCDateTime)
  (tickers : list IntradayTicker) (n : Z) : TopNSymbols :=
  from_tickers time (slice_to (filter (fun t => gap t >? 0) tickers) n).

(** [RealTimeTrading.get_bottom_n_tickers]: the tickers with a negative gap,
    in the order of [tickers], cut at [n]. *)
Definition get_bottom_n_tickers (time : UTCDateTime)
  (tickers : list IntradayTicker) (n : Z) : TopNSymbols :=
  from_tickers time (slice_to (filter (fun t => gap t <? 0) tickers) n).

(** ** What the engine does to the outside *)

(** [constants.TOP_HIGH_EVENT] and [constants.TOP_LOW_EVENT]: the two topics. *)
Inductive topic : Type :=
| TOP_HIGH_EVENT
| TOP_LOW_EVENT.

(** A [send] of the top-symbol producer, or a line handed to the logger at
    level warning or info (the format string stands for the line). *)
Inductive effect : Type :=
| Send (t : topic) (value : TopNSymbols)
| LogWarning (fmt : string)
| LogInfo (fmt : string).

Definition is_send (e : effect) : bool :=
  match e with Send _ _ => true | _ => false end.

(** The change events a trace publishes, in order. *)
Definition published (tr : list effect) : list effect := filter is_send tr.

(** ** Session calendar *)

Definition microseconds_per_day : Z := 86400000000.

(** [utils.datetime2datestr]: the calendar date of an instant, as the number
    of its day. *)
Definition datetime2datestr (dt : UTCDateTime) : Z := dt / microseconds_per_day.

(** The NASDAQ calendar of [exchange_calendars]: whether a date is a session,
    and the session's open and close, for the dates the calendar covers (its
    range is [CalendarRange] below). *)
Class Calendar : Type := {
  is_session : Z -> bool;
  session_open : Z -> UTCDateTime;
  session_close : Z -> UTCDateTime
}.

(** The metric of a price against the reference baseline, and the baseline a
    contract starts with: both come from outside the sources. *)
Class GapModel : Type := {
  compute_gap : Z -> Z -> Z;
  reference_of : Stock -> Z
}.

Section Engine.
Context {cal : Calendar} {gm : GapModel}.

(** [utils.get_market_open_close], called with the instant of an event. *)
Definition get_market_open_close (dt : UTCDateTime)
  : option UTCDateTime * option UTCDateTime :=
  let date := datetime2datestr dt in
  if negb (is_session date) then (None, None)
  else (Some (session_open date), Some (session_close date)).

(** Modelled from the spec: the constructor of [IntradayTicker] is not among
    the sources; a symbol with no accepted price yet has no last price and
    ranks on neither side, its gap being 0. *)
Definition new_ticker (c : Stock) : IntradayTicker :=
  mkIntradayTicker c (reference_of c) FNaN 0 None.

(** Modelled from the spec: [IntradayTicker.update] is not among the sources;
    it computes the new metric from the event price and the baseline, reports
    whether it differs from the stored one (exact comparison), and on a
    change overwrites price, metric and time in place. *)
Definition update (t : IntradayTicker) (raw_ticker : RawTicker)
  : bool * IntradayTicker :=
  match rt_last raw_ticker with
  | FNaN => (false, t)
  | FNum price =>
      let g := compute_gap (reference t) price in
      if g =? gap t then (false, t)
      else (true, mkIntradayTicker (contract t) (reference t) (FNum price) g
                    (Some (rt_time raw_ticker)))
  end.

(** The attributes of a [RealTimeTrading] object that [_consume] reads or
    writes. *)
Record RealTimeTrading : Type := mkRealTimeTrading {
  tickers : list (string * IntradayTicker);
  bake_in_minutes : Z;
  bake_out_minutes : Z;
  n_top_tickers : Z;
  n_bottom_tickers : Z;
  top_n_symbols : option TopNSymbols;
  bottom_n_symbols : option TopNSymbols;
  _bypass_update_window : bool
}.

Definition set_tickers (self : RealTimeTrading) d : RealTimeTrading :=
  mkRealTimeTrading d (bake_in_minutes self) (bake_out_minutes self)
    (n_top_tickers self) (n_bottom_tickers self) (top_n_symbols self)
    (bottom_n_symbols self) (_bypass_update_window self).

Definition set_top_n_symbols (self : RealTimeTrading) s : RealTimeTrading :=
  mkRealTimeTrading (tickers self) (bake_in_minutes self)
    (bake_out_minutes self) (n_top_tickers self) (n_bottom_tickers self) s
    (bottom_n_symbols self) (_bypass_update_window self).

Definition set_bottom_n_symbols (self : RealTimeTrading) s : RealTimeTrading :=
  mkRealTimeTrading (tickers self) (bake_in_minutes self)
    (bake_out_minutes self) (n_top_tickers self) (n_bottom_tickers self)
    (top_n_symbols self) s (_bypass_update_window self).

(** [RealTimeTrading.__init__]: one ticker per contract, keyed by symbol, and
    no snapshot published yet. *)
Definition __init__ (contracts : list Stock)
  (bake_in bake_out n_top n_bottom : Z) (bypass : bool) : RealTimeTrading :=
  mkRealTimeTrading
    (fold_left (fun d c => PyDict.set String.eqb d (symbol c) (new_ticker c))
       contracts [])
    bake_in bake_out n_top n_bottom None None bypass.

(** [RealTimeTrading.inside_update_window] *)
Definition inside_update_window (self : RealTimeTrading) (dt : UTCDateTime)
  : bool :=
  match get_market_open_close dt with
  | (Some open_, Some close) =>
      let open_after_bake_in :=
        open_ + timedelta_minutes (bake_in_minutes self) in
      let close_before_bake_out :=
        close - timedelta_minutes (bake_out_minutes self) in
      (dt >=? open_after_bake_in) && (dt <? close_before_bake_out)
  | _ => false
  end.

(** [RealTimeTrading.rank_tickers] *)
Definition rank_tickers (self : RealTimeTrading) : list IntradayTicker :=
  sort_by_gap (PyDict.values (tickers self)).

(** [a is None or new != a], for a stored snapshot [a]. *)
Definition is_none_or_differs (stored : option TopNSymbols)
  (new : TopNSymbols) : bool :=
  match stored with
  | None => true
  | Some old => negb (TopNSymbols_eqb new old)
  end.

(** [RealTimeTrading._check_top_symbols] *)
Definition _check_top_symbols (self : RealTimeTrading) (time : UTCDateTime)
  : RealTimeTrading * list effect :=
  let ranked := rank_tickers self in
  let top := get_top_n_tickers time ranked (n_top_tickers self) in
  let '(self1, tr1) :=
    if is_none_or_differs (top_n_symbols self) top
    then (set_top_n_symbols self (Some top),
          [Send TOP_HIGH_EVENT top; LogInfo "sending top high event"])
    else (self, []) in
  let bottom := get_bottom_n_tickers time ranked (n_bottom_tickers self1) in
  let '(self2, tr2) :=
    if is_none_or_differs (bottom_n_symbols self1) bottom
    then (set_bottom_n_symbols self1 (Some bottom),
          [Send TOP_LOW_EVENT bottom; LogInfo "sending top low event"])
    else (self1, []) in
  (self2, tr1 ++ tr2).

(** [RealTimeTrading._consume], on the raw ticker a message carries. *)
Definition _consume (self : RealTimeTrading) (raw_ticker : RawTicker)
  : RealTimeTrading * list effect :=
  if negb (_bypass_update_window self)
     && negb (inside_update_window self (rt_time raw_ticker))
  then (self, [LogWarning "ticker is outside update window: %s"])
  else if isnan (rt_last raw_ticker)
  then (self, [LogWarning "ticker has nan last price: %s"])
  else
    match PyDict.get String.eqb (tickers self) (rt_symbol raw_ticker) with
    | None => (self, [LogWarning "ticker not found for symbol: %s"])
    | Some intraday_ticker =>
        let '(updated, t') := update intraday_ticker raw_ticker in
        let self' :=
          set_tickers self
            (PyDict.set String.eqb (tickers self) (rt_symbol raw_ticker) t') in
        if updated then _check_top_symbols self' (rt_time raw_ticker)
        else (self', [])
    end.

(** [RealTimeTrading.consume], over the messages the consumer yields. *)
Fixpoint consume (self : RealTimeTrading) (msgs : list RawTicker)
  : RealTimeTrading * list effect :=
  match msgs with
  | [] => (self, [])
  | msg :: rest =>
      let '(self1, tr1) := _consume self msg in
      let '(self2, tr2) := consume self1 rest in
      (self2, tr1 ++ tr2)
  end.

(** An event the filters let through whose update reports a change: the
    condition under which [_consume] reaches [_check_top_symbols]. *)
Definition reports_change (self : RealTimeTrading) (raw_ticker : RawTicker)
  : bool :=
  (_bypass_update_window self
   || inside_update_window self (rt_time raw_ticker))
  && negb (isnan (rt_last raw_ticker))
  && match PyDict.get String.eqb (tickers self) (rt_symbol raw_ticker) with
     | None => false
     | Some intraday_ticker => fst (update intraday_ticker raw_ticker)
     end.

(** No message of [msgs], consumed in turn from [self], reports a change. *)
Fixpoint quiet (self : RealTimeTrading) (msgs : list RawTicker) : bool :=
  match msgs with
  | [] => true
  | msg :: rest =>
      negb (reports_change self msg) && quiet (fst (_consume self msg)) rest
  end.

(** The pipeline with its filters in the order the specification lists them
    (validity, then window, then universe), to compare [_consume] with. *)
Definition _consume_in_stated_order (self : RealTimeTrading)
  (raw_ticker : RawTicker) : RealTimeTrading * list effect :=
  if isnan (rt_last raw_ticker)
  then (self, [LogWarning "ticker has nan last price: %s"])
  else if negb (_bypass_update_window self)
          && negb (inside_update_window self (rt_time raw_ticker))
  then (self, [LogWarning "ticker is outside update window: %s"])
  else
    match PyDict.get String.eqb (tickers self) (rt_symbol raw_ticker) with
    | None => (self, [LogWarning "ticker not found for symbol: %s"])
    | Some intraday_ticker =>
        let '(updated, t') := update intraday_ticker raw_ticker in
        let self' :=
          set_tickers self
            (PyDict.set String.eqb (tickers self) (rt_symbol raw_ticker) t') in
        if updated then _check_top_symbols self' (rt_time raw_ticker)
        else (self', [])
    end.

End Engine.

(** [a] stands before [b] in [l]. *)
Inductive precedes {A : Type} (a b : A) : list A -> Prop :=
| precedes_here : forall l, In b l -> precedes a b (a :: l)
| precedes_later : forall x l, precedes a b l -> precedes a b (x :: l).

Definition gap_le (a b : IntradayTicker) : Prop := gap a <= gap b.

Definition has_gap (g : Z) (t : IntradayTicker) : bool := gap t =? g.

(** A ticker sits under the symbol of its contract. *)
Definition key_is_symbol (kv : string * IntradayTicker) : Prop :=
  symbol (contract (snd kv)) = fst kv.

(** ** The offset seeker *)

(** [kafka.TopicPartition] *)
Record TopicPartition : Type := mkTopicPartition {
  tp_topic : string;
  tp_partition : Z
}.

Definition TopicPartition_eqb (a b : TopicPartition) : bool :=
  String.eqb (tp_topic a) (tp_topic b) && (tp_partition a =? tp_partition b).

(** [kafka.structs.OffsetAndTimestamp]: a tuple whose item 0 is the offset. *)
Record OffsetAndTimestamp : Type := mkOffsetAndTimestamp {
  oat_offset : Z;
  oat_timestamp : Z
}.

(** A [KafkaConsumer] as [set_offsets_by_time] uses it: the subscribed
    topics, the partitions the cluster knows for a topic, the records of each
    partition (offset and timestamp in milliseconds, by offset), and the read
    cursor of the partitions that were sought. *)
Record KafkaConsumer : Type := mkKafkaConsumer {
  kc_subscription : list string;
  kc_partitions : list (string * list Z);
  kc_records : list (TopicPartition * list OffsetAndTimestamp);
  kc_position : list (TopicPartition * Z)
}.

(** [consumer.partitions_for_topic(t)]: [None] for a topic without metadata. *)
Definition partitions_for_topic (consumer : KafkaConsumer) (t : string)
  : option (list Z) :=
  PyDict.get String.eqb (kc_partitions consumer) t.

(** The earliest record of a partition whose timestamp is at or after [ts]. *)
Definition first_at_or_after (consumer : KafkaConsumer)
  (part : TopicPartition) (ts : Z) : option OffsetAndTimestamp :=
  match PyDict.get TopicPartition_eqb (kc_records consumer) part with
  | None => None
  | Some records => find (fun r => ts <=? oat_timestamp r) records
  end.

(** [consumer.offsets_for_times(d)] of kafka-python: every partition asked
    for is a key of the result; its value is the earliest record at or after
    the timestamp, and [None] when the partition holds no such record. The
    entries stand in the order of the partitions asked for; kafka-python
    puts those without a record last. *)
Definition offsets_for_times (consumer : KafkaConsumer)
  (partition_to_timestamp : list (TopicPartition * Z))
  : list (TopicPartition * option OffsetAndTimestamp) :=
  map (fun '(part, ts) => (part, first_at_or_after consumer part ts))
    partition_to_timestamp.

(** [consumer.seek(partition, offset)], on a partition that is assigned to
    the consumer: kafka-python asserts the assignment, and the partitions
    sought here are taken to be assigned. *)
Definition seek (consumer : KafkaConsumer) (part : TopicPartition)
  (offset : Z) : KafkaConsumer :=
  mkKafkaConsumer (kc_subscription consumer) (kc_partitions consumer)
    (kc_records consumer)
    (PyDict.set TopicPartition_eqb (kc_position consumer) part offset).

(** How a call ends: it returns, or an exception leaves it; either way with
    the consumer as the call left it. *)
Inductive exn : Type :=
| TypeError.

Inductive outcome : Type :=
| Returned (consumer : KafkaConsumer)
| Raised (e : exn) (consumer : KafkaConsumer).

(** The loop [for partition, ts in mapping.items()]: [ts[0]] raises a
    [TypeError] when [ts] is [None]. *)
Fixpoint seek_each (consumer : KafkaConsumer)
  (mapping : list (TopicPartition * option OffsetAndTimestamp)) : outcome :=
  match mapping with
  | [] => Returned consumer
  | (part, None) :: _ => Raised TypeError consumer
  | (part, Some ts) :: rest =>
      seek_each (seek consumer part (oat_offset ts)) rest
  end.

(** [UTCDateTime.timestamp_ms] *)
Definition timestamp_ms (dt : UTCDateTime) : Z := dt / 1000.

(** [utils.set_offsets_by_time]; [local_midnight] is the start of the current
    day in local time, which the function takes when no time is given. *)
Definition set_offsets_by_time (local_midnight : UTCDateTime)
  (consumer : KafkaConsumer) (start_time : option UTCDateTime) : outcome :=
  let start_time :=
    match start_time with None => local_midnight | Some t => t end in
  let topics := kc_subscription consumer in
  match topics with
  | [] => Returned consumer
  | _ =>
      let partitions :=
        flat_map
          (fun t =>
             match partitions_for_topic consumer t with
             | None => []
             | Some parts => map (mkTopicPartition t) parts
             end)
          topics in
      let partition_to_timestamp :=
        fold_left
          (fun d part =>
             PyDict.set TopicPartition_eqb d part (timestamp_ms start_time))
          partitions [] in
      let mapping := offsets_for_times consumer partition_to_timestamp in
      seek_each consumer mapping
  end.

(** The read cursor of a partition, when it was sought. *)
Definition position (consumer : KafkaConsumer) (part : TopicPartition)
  : option Z :=
  PyDict.get TopicPartition_eqb (kc_position consumer) part.

(** ** A concrete setting, for the scenarios *)

(** A calendar whose sessions are the weekdays (day 0 of the epoch is a
    Thursday), open from 14:30 to 21:00. *)
Definition weekday_calendar : Calendar := {|
  is_session := fun date => negb ((date mod 7 =? 2) || (date mod 7 =? 3));
  session_open :=
    fun date => date * microseconds_per_day + timedelta_minutes 870;
  session_close :=
    fun date => date * microseconds_per_day + timedelta_minutes 1260
|}.

(** The gap as the deviation of the price from a baseline of 0. *)
Definition deviation : GapModel := {|
  compute_gap := fun reference price => price - reference;
  reference_of := fun _ => 0
|}.

Definition stock_A : Stock := mkStock "A".
Definition stock_B : Stock := mkStock "B".
Definition stock_C : Stock := mkStock "C".

(** The engine of the scenario: universe A, B, C, two symbols a side, the
    window bypassed. *)
Definition engine_ABC : RealTimeTrading :=
  @__init__ deviation [stock_A; stock_B; stock_C] 0 0 2 2 true.

(** The same universe with the window in force, 30 minutes baked in and out. *)
Definition engine_windowed : RealTimeTrading :=
  @__init__ deviation [stock_A; stock_B; stock_C] 30 30 2 2 false.

Definition step_ABC : RealTimeTrading -> RawTicker -> RealTimeTrading * list effect :=
  @_consume weekday_calendar deviation.

Definition run_ABC : RealTimeTrading -> list RawTicker -> RealTimeTrading * list effect :=
  @consume weekday_calendar deviation.

(** Friday 2 January 1970, 15:00: inside the session of day 1. *)
Definition friday_1500 : UTCDateTime :=
  1 * microseconds_per_day + timedelta_minutes 900.

(** Saturday 3 January 1970, 15:00: day 2 is no session. *)
Definition saturday_1500 : UTCDateTime :=
  2 * microseconds_per_day + timedelta_minutes 900.

Definition events_ABC : list RawTicker :=
  [mkRawTicker "A" (FNum 5) friday_1500;
   mkRawTicker "B" (FNum 3) (friday_1500 + 1);
   mkRawTicker "C" (FNum 7) (friday_1500 + 2)].

Definition event_A5 : RawTicker := mkRawTicker "A" (FNum 5) friday_1500.
Definition event_B3 : RawTicker := mkRawTicker "B" (FNum 3) (friday_1500 + 1).

(** A price that is not a number, at an instant outside every session. *)
Definition event_nan_saturday : RawTicker :=
  mkRawTicker "A" FNaN saturday_1500.

(** A symbol outside the universe. *)
Definition event_unknown : RawTicker := mkRawTicker "Z" (FNum 9) friday_1500.

(** An engine in which A fell by 5, B rose by 3 and C fell by 7. *)
Definition engine_mixed : RealTimeTrading :=
  fst (run_ABC engine_ABC
         [mkRawTicker "A" (FNum (-5)) friday_1500;
          mkRawTicker "B" (FNum 3) friday_1500;
          mkRawTicker "C" (FNum (-7)) friday_1500]).

(** The engine of the scenario after the update of A. *)
Definition engine_after_A : RealTimeTrading :=
  fst (step_ABC engine_ABC event_A5).

(** Contracts B then A, both risen by 5. *)
Definition contracts_BA : list Stock := [stock_B; stock_A].

Definition events_tie : list RawTicker :=
  [mkRawTicker "A" (FNum 5) friday_1500;
   mkRawTicker "B" (FNum 5) (friday_1500 + 1)].

(** A consumer subscribed to one topic with two partitions: partition 0 holds
    three records, partition 1 none. *)
Definition raw_part (p : Z) : TopicPartition :=
  mkTopicPartition "raw_ticker_event" p.

Definition consumer_two_partitions : KafkaConsumer :=
  mkKafkaConsumer ["raw_ticker_event"] [("raw_ticker_event", [0; 1])]
    [(raw_part 0,
      [mkOffsetAndTimestamp 0 1000; mkOffsetAndTimestamp 1 2000;
       mkOffsetAndTimestamp 2 3000]);
     (raw_part 1, [])]
    [].

(** The same topic with the single partition 0. *)
Definition consumer_one_partition : KafkaConsumer :=
  mkKafkaConsumer ["raw_ticker_event"] [("raw_ticker_event", [0])]
    [(raw_part 0,
      [mkOffsetAndTimestamp 0 1000; mkOffsetAndTimestamp 1 2000;
       mkOffsetAndTimestamp 2 3000])]
    [].

(** ** Reading a trace and an engine by topic *)

Definition topic_eqb (a b : topic) : bool :=
  match a, b with
  | TOP_HIGH_EVENT, TOP_HIGH_EVENT => true
  | TOP_LOW_EVENT, TOP_LOW_EVENT => true
  | _, _ => false
  end.

(** The snapshots a trace sends on a topic, in order. *)
Definition sent_on (t : topic) (tr : list effect) : list TopNSymbols :=
  flat_map
    (fun e =>
       match e with
       | Send t' s => if topic_eqb t t' then [s] else []
       | _ => []
       end) tr.

(** The snapshot an engine stores for a topic's side. *)
Definition stored (t : topic) (self : RealTimeTrading) : option TopNSymbols :=
  match t with
  | TOP_HIGH_EVENT => top_n_symbols self
  | TOP_LOW_EVENT => bottom_n_symbols self
  end.

(** The last element of a list, or [default] for the empty list. *)
Definition last_or {A : Type} (default : option A) (l : list A) : option A :=
  fold_left (fun _ x => Some x) l default.

(** Each snapshot of [l] differs from the one before it, the first from
    [prev] (when there is one). *)
Fixpoint differs_in_turn (prev : option TopNSymbols) (l : list TopNSymbols)
  : Prop :=
  match l with
  | [] => True
  | s :: r => is_none_or_differs prev s = true /\ differs_in_turn (Some s) r
  end.

(** [utils.is_core_market_minutes], on an instant that carries its time zone
    (the assertion of the function). *)
Definition is_core_market_minutes {cal : Calendar} (dt : UTCDateTime) : bool :=
  match get_market_open_close dt with
  | (Some open_, Some close) => (dt >=? open_) && (dt <? close)
  | _ => false
  end.

(** The partitions [set_offsets_by_time] collects: those of the subscribed
    topics, the topics without metadata being passed over. *)
Definition subscribed_partitions (consumer : KafkaConsumer)
  : list TopicPartition :=
  flat_map
    (fun t =>
       match partitions_for_topic consumer t with
       | None => []
       | Some parts => map (mkTopicPartition t) parts
       end)
    (kc_subscription consumer).

(** [utils.set_offsets_by_time_aiokafka], its awaited lookup taken in
    sequence; [assignment] is what [consumer.assignment()] gives, and the
    lookup of aiokafka has the contract of [offsets_for_times]. *)
Definition set_offsets_by_time_aiokafka (local_midnight : UTCDateTime)
  (consumer : KafkaConsumer) (assignment : list TopicPartition)
  (start_time : option UTCDateTime) : outcome :=
  let start_time :=
    match start_time with None => local_midnight | Some t => t end in
  let partitions := assignment in
  let partition_to_timestamp :=
    fold_left
      (fun d part =>
         PyDict.set TopicPartition_eqb d part (timestamp_ms start_time))
      partitions [] in
  let mapping := offsets_for_times consumer partition_to_timestamp in
  seek_each consumer mapping.

(** The consumer a call leaves, however it ends. *)
Definition consumer_of (o : outcome) : KafkaConsumer :=
  match o with Returned c => c | Raised _ c => c end.

(** The timestamp a call looks up: that of the time given, or of the local
    midnight when none is. *)
Definition start_timestamp_ms (local_midnight : UTCDateTime)
  (start_time : option UTCDateTime) : Z :=
  timestamp_ms (match start_time with None => local_midnight | Some t => t end).

(** A consumer subscribed to a topic the cluster has no metadata for. *)
Definition consumer_without_metadata : KafkaConsumer :=
  mkKafkaConsumer ["raw_ticker_event"] [] [] [(raw_part 0, 7)].

(** ** Names *)

(** [c.isupper()] and [c.lower()] on a character of the ASCII range. *)
Definition isupper (c : ascii) : bool :=
  (65 <=? nat_of_ascii c)%nat && (nat_of_ascii c <=? 90)%nat.

Definition lower (c : ascii) : ascii :=
  if isupper c then ascii_of_nat (nat_of_ascii c + 32) else c.

(** [s.isascii()]: the strings on which the definitions above are those of
    Python. *)
Fixpoint isascii (s : string) : bool :=
  match s with
  | EmptyString => true
  | String c r => (nat_of_ascii c <? 128)%nat && isascii r
  end.

(** The join of [["_" + c.lower() if c.isupper() else c for c in name]]. *)
Fixpoint underscore_capitals (name : string) : string :=
  match name with
  | EmptyString => EmptyString
  | String c r =>
      if isupper c
      then String "_"%char (String (lower c) (underscore_capitals r))
      else String c (underscore_capitals r)
  end.

(** [s.lstrip("_")] *)
Fixpoint lstrip_underscores (s : string) : string :=
  match s with
  | String c r => if Ascii.eqb c "_"%char then lstrip_underscores r else s
  | EmptyString => EmptyString
  end.

(** [utils.camel_to_snake] *)
Definition camel_to_snake (name : string) : string :=
  lstrip_underscores (underscore_capitals name).

(** No character of [s] is a capital. *)
Fixpoint no_capital (s : string) : bool :=
  match s with
  | EmptyString => true
  | String c r => negb (isupper c) && no_capital r
  end.

(** [s.startswith("_")] *)
Definition starts_with_underscore (s : string) : bool :=
  match s with
  | String c _ => Ascii.eqb c "_"%char
  | EmptyString => false
  end.

(** ** Handlers *)

(** [ib_insync.Ticker], of which the handlers read the contract (which may be
    [None]); the last price and the time tell two tickers of one contract
    apart. *)
Record Ticker : Type := mkTicker {
  tk_contract : option Stock;
  tk_last : pyfloat;
  tk_time : UTCDateTime
}.

(** What the handlers take from outside the sources: [RawTicker.from_ticker]
    and the text [str(ticker)] of a ticker. *)
Class TickerFormat : Type := {
  from_ticker : Ticker -> RawTicker;
  str_of_ticker : Ticker -> string
}.

(** How a handler call ends: it runs to its end, or an [assert] fails. *)
Inductive handler_status : Type :=
| Completed
| AssertionFailed.

(** A record handed to [KafkaProducer.send]. *)
Record ProducerRecord : Type := mkProducerRecord {
  pr_topic : string;
  pr_key : string;
  pr_value : RawTicker;
  pr_timestamp_ms : Z
}.

(** What [RawTickerKafkaHandler] does to the outside, in program order: the
    info line with the symbol, the construction of the producer, a send. *)
Inductive kafka_effect : Type :=
| LogSending (sym : string)
| CreateProducer
| ProducerSend (r : ProducerRecord).

(** [RawTickerKafkaHandler]: its topic, and whether the attribute [_producer]
    exists yet. *)
Record RawTickerKafkaHandler : Type := mkRawTickerKafkaHandler {
  kh_topic : string;
  kh_has_producer : bool
}.

(** [RawTickerFileHandler]: the directory and the prefix ([mode] is taken by
    the constructor and not kept). *)
Record RawTickerFileHandler : Type := mkRawTickerFileHandler {
  fh_directory : string;
  fh_filename_prefix : option string
}.

(** The files, by path, with their text. *)
Definition FileSystem : Type := list (string * string).

(** The text of a file, empty for a file that does not exist. *)
Definition read_file (fs : FileSystem) (path : string) : string :=
  match PyDict.get String.eqb fs path with
  | Some text => text
  | None => EmptyString
  end.

(** [with open(path, "a") as f: f.write(text)]: the text goes to the end of
    the file, which is created when it does not exist. *)
Definition append_file (fs : FileSystem) (path text : string) : FileSystem :=
  PyDict.set String.eqb fs path (read_file fs path ++ text)%string.

Section Handlers.
Context {fmt : TickerFormat}.

(** [RawTickerKafkaHandler.to_kafka] *)
Definition to_kafka (self : RawTickerKafkaHandler) (ticker : Ticker)
  : handler_status * RawTickerKafkaHandler * list kafka_effect :=
  match tk_contract ticker with
  | None => (AssertionFailed, self, [])
  | Some c =>
      let created :=
        if kh_has_producer self then [] else [CreateProducer] in
      let self1 := mkRawTickerKafkaHandler (kh_topic self) true in
      let raw_ticker := from_ticker ticker in
      (Completed, self1,
       [LogSending (symbol c)] ++ created
       ++ [ProducerSend
             (mkProducerRecord (kh_topic self) (symbol c) raw_ticker
                (timestamp_ms (rt_time raw_ticker)))])
  end.

(** [RawTickerKafkaHandler.__call__], over the tickers in the order in which
    the set yields them. *)
Fixpoint kafka_handler_call (self : RawTickerKafkaHandler)
  (tickers : list Ticker)
  : handler_status * RawTickerKafkaHandler * list kafka_effect :=
  match tickers with
  | [] => (Completed, self, [])
  | ticker :: rest =>
      match to_kafka self ticker with
      | (Completed, self1, tr1) =>
          let '(status, self2, tr2) := kafka_handler_call self1 rest in
          (status, self2, tr1 ++ tr2)
      | failed => failed
      end
  end.

(** [RawTickerFileHandler._get_filename]; [today] is the local date as
    [%Y%m%d]. *)
Definition _get_filename (today : string) (self : RawTickerFileHandler)
  (sym : string) : string :=
  let dated := ("raw_ticker_" ++ today)%string in
  let prefix :=
    match fh_filename_prefix self with
    | None => dated
    | Some EmptyString => dated
    | Some p => p
    end in
  (fh_directory self ++ "/" ++ prefix ++ "_" ++ sym ++ ".txt")%string.

(** [RawTickerFileHandler.__call__] *)
Fixpoint file_handler_call (today : string) (self : RawTickerFileHandler)
  (fs : FileSystem) (tickers : list Ticker) : handler_status * FileSystem :=
  match tickers with
  | [] => (Completed, fs)
  | ticker :: rest =>
      match tk_contract ticker with
      | None => (AssertionFailed, fs)
      | Some c =>
          let filename := _get_filename today self (symbol c) in
          file_handler_call today self
            (append_file fs filename
               (str_of_ticker ticker ++ String "010"%char EmptyString)%string)
            rest
      end
  end.

(** The records a trace sends, in order. *)
Definition records_sent (tr : list kafka_effect) : list ProducerRecord :=
  flat_map (fun e => match e with ProducerSend r => [r] | _ => [] end) tr.

(** How many times a trace constructs the producer. *)
Definition producers_created (tr : list kafka_effect) : nat :=
  List.length
    (filter (fun e => match e with CreateProducer => true | _ => false end) tr).

(** The record [to_kafka] sends for a ticker under a contract. *)
Definition record_of (topic : string) (ticker : Ticker) (c : Stock)
  : ProducerRecord :=
  mkProducerRecord topic (symbol c) (from_ticker ticker)
    (timestamp_ms (rt_time (from_ticker ticker))).

(** The records of the tickers of a list that have a contract. *)
Definition records_of (topic : string) (tickers : list Ticker)
  : list ProducerRecord :=
  flat_map
    (fun t =>
       match tk_contract t with
       | Some c => [record_of topic t c]
       | None => []
       end) tickers.

(** The lines [file_handler_call] writes to [path] for a list of tickers
    that have contracts. *)
Fixpoint lines_for (today : string) (self : RawTickerFileHandler)
  (path : string) (tickers : list Ticker) : string :=
  match tickers with
  | [] => EmptyString
  | ticker :: rest =>
      match tk_contract ticker with
      | Some c =>
          if String.eqb (_get_filename today self (symbol c)) path
          then (str_of_ticker ticker ++ String "010"%char EmptyString
                ++ lines_for today self path rest)%string
          else lines_for today self path rest
      | None => lines_for today self path rest
      end
  end.

End Handlers.

Definition has_contract (ticker : Ticker) : bool :=
  match tk_contract ticker with Some _ => true | None => false end.

(** The tickers of a list before the first one without a contract. *)
Fixpoint contract_prefix (tickers : list Ticker) : list Ticker :=
  match tickers with
  | [] => []
  | ticker :: rest =>
      if has_contract ticker then ticker :: contract_prefix rest else []
  end.

(** Every send of a trace finds a producer: one that exists at the start
    ([has]) or that the trace constructed before. *)
Fixpoint producer_ready (has : bool) (tr : list kafka_effect) : bool :=
  match tr with
  | [] => true
  | CreateProducer :: rest => producer_ready true rest
  | ProducerSend _ :: rest => has && producer_ready has rest
  | LogSending _ :: rest => producer_ready has rest
  end.

(** A fresh handler for the raw tickers, and three tickers: two with a
    contract, then one without. *)
Definition plain_format : TickerFormat := {|
  from_ticker :=
    fun t =>
      mkRawTicker
        (match tk_contract t with Some c => symbol c | None => "" end)
        (tk_last t) (tk_time t);
  str_of_ticker :=
    fun t => match tk_contract t with Some c => symbol c | None => "" end
|}.

Definition ticker_A : Ticker := mkTicker (Some stock_A) (FNum 5) friday_1500.
Definition ticker_B : Ticker := mkTicker (Some stock_B) (FNum 3) friday_1500.
Definition ticker_bare : Ticker := mkTicker None FNaN friday_1500.

Definition fresh_kafka_handler : RawTickerKafkaHandler :=
  mkRawTickerKafkaHandler "raw_ticker_event" false.

Definition file_handler : RawTickerFileHandler :=
  mkRawTickerFileHandler "data" None.

(** A calendar without any session. *)
Definition closed_calendar : Calendar := {|
  is_session := fun _ => false;
  session_open := fun _ => 0;
  session_close := fun _ => 0
|}.

(** An engine whose baked minutes cover the 390 minutes of a session. *)
Definition engine_overbaked : RealTimeTrading :=
  @__init__ deviation [stock_A; stock_B; stock_C] 200 200 2 2 false.

(** The open and the close of the session of Friday 2 January 1970. *)
Definition open_1430_friday : UTCDateTime :=
  1 * microseconds_per_day + timedelta_minutes 870.

Definition close_2100_friday : UTCDateTime :=
  1 * microseconds_per_day + timedelta_minutes 1260.

(** ** The key codec *)

(** The Kafka clients of the engine and of the handlers are built with
    [key_serializer=utils.str2bytes] and [key_deserializer=utils.bytes2str].
    A Python [str] is the list of its code points, a [bytes] the list of its
    bytes; [None] stands for the [UnicodeEncodeError] or [UnicodeDecodeError]
    that the codec raises under its default, strict, error handling. *)

Definition is_surrogate (c : Z) : bool := (0xD800 <=? c) && (c <=? 0xDFFF).

(** The code points UTF-8 encodes: those of a [str] but the surrogates. *)
Definition is_scalar_value (c : Z) : bool :=
  (0 <=? c) && (c <? 0x110000) && negb (is_surrogate c).

Definition is_byte (b : Z) : bool := (0 <=? b) && (b <? 256).

(** The one to four bytes of a code point. *)
Definition encode_code_point (c : Z) : option (list Z) :=
  if c <? 0 then None
  else if c <? 0x80 then Some [c]
  else if c <? 0x800 then Some [0xC0 + c / 64; 0x80 + c mod 64]
  else if c <? 0x10000 then
    if is_surrogate c then None
    else Some [0xE0 + c / 4096; 0x80 + (c / 64) mod 64; 0x80 + c mod 64]
  else if c <? 0x110000 then
    Some [0xF0 + c / 262144; 0x80 + (c / 4096) mod 64;
          0x80 + (c / 64) mod 64; 0x80 + c mod 64]
  else None.

(** [utils.str2bytes]: [s.encode("utf-8")] *)
Fixpoint str2bytes (s : list Z) : option (list Z) :=
  match s with
  | [] => Some []
  | c :: r =>
      match encode_code_point c, str2bytes r with
      | Some bs, Some br => Some (bs ++ br)
      | _, _ => None
      end
  end.

Definition continuation (b : Z) : bool := (0x80 <=? b) && (b <=? 0xBF).

(** [utils.bytes2str]: [b.decode("utf-8")]. The decoder refuses a byte that
    starts no sequence, a sequence cut short, a sequence longer than its code
    point needs, a surrogate and a code point above [0x10FFFF]. *)
Fixpoint bytes2str (b : list Z) : option (list Z) :=
  match b with
  | [] => Some []
  | b0 :: r0 =>
      if (0 <=? b0) && (b0 <? 0x80) then option_map (cons b0) (bytes2str r0)
      else if (0xC2 <=? b0) && (b0 <=? 0xDF) then
        match r0 with
        | b1 :: r1 =>
            if continuation b1
            then option_map (cons ((b0 - 0xC0) * 64 + (b1 - 0x80)))
                   (bytes2str r1)
            else None
        | _ => None
        end
      else if (0xE0 <=? b0) && (b0 <=? 0xEF) then
        match r0 with
        | b1 :: b2 :: r2 =>
            let c := (b0 - 0xE0) * 4096 + (b1 - 0x80) * 64 + (b2 - 0x80) in
            if continuation b1 && continuation b2
               && (0x800 <=? c) && negb (is_surrogate c)
            then option_map (cons c) (bytes2str r2)
            else None
        | _ => None
        end
      else if (0xF0 <=? b0) && (b0 <=? 0xF4) then
        match r0 with
        | b1 :: b2 :: b3 :: r3 =>
            let c := (b0 - 0xF0) * 262144 + (b1 - 0x80) * 4096
                     + (b2 - 0x80) * 64 + (b3 - 0x80) in
            if continuation b1 && continuation b2 && continuation b3
               && (0x10000 <=? c) && (c <? 0x110000)
            then option_map (cons c) (bytes2str r3)
            else None
        | _ => None
        end
      else None
  end.

(** The code points of a key with one character of each length, and its
    ten bytes. *)
Definition key_of_four : list Z := [0x41; 0xE9; 0x20AC; 0x1F600].

Definition bytes_of_four : list Z :=
  [0x41; 0xC3; 0xA9; 0xE2; 0x82; 0xAC; 0xF0; 0x9F; 0x98; 0x80].

(** ** The calendar's range *)

(** [exchange_calendars] answers for the dates from its first to its last
    session only: on any other date [is_session], [session_open] and
    [session_close] raise [DateOutOfBounds], and neither
    [utils.get_market_open_close], nor [inside_update_window], nor
    [_consume], nor [consume] catches it. [Calendar] holds the answers,
    [CalendarRange] the dates for which there is one. *)
Class CalendarRange : Type := {
  covers : Z -> bool
}.

(** What a call that consults the calendar comes to: a value, or the
    exception on its way up. *)
Inductive raising (A : Type) : Type :=
| Value (a : A)
| DateOutOfBounds.

Arguments Value {A} a.
Arguments DateOutOfBounds {A}.

Section EngineRaising.
Context {cal : Calendar} {range : CalendarRange} {gm : GapModel}.

(** [utils.get_market_open_close] with the exception: the first call of the
    calendar, [nasdaq.is_session(date)], raises on a date outside the range;
    on a date inside it the three calls answer. *)
Definition get_market_open_close_raising (dt : UTCDateTime)
  : raising (option UTCDateTime * option UTCDateTime) :=
  let date := datetime2datestr dt in
  if negb (covers date) then DateOutOfBounds
  else if negb (is_session date) then Value (None, None)
  else Value (Some (session_open date), Some (session_close date)).

(** [RealTimeTrading.inside_update_window] with the exception. *)
Definition inside_update_window_raising (self : RealTimeTrading)
  (dt : UTCDateTime) : raising bool :=
  match get_market_open_close_raising dt with
  | DateOutOfBounds => DateOutOfBounds
  | Value (Some open_, Some close) =>
      let open_after_bake_in :=
        open_ + timedelta_minutes (bake_in_minutes self) in
      let close_before_bake_out :=
        close - timedelta_minutes (bake_out_minutes self) in
      Value ((dt >=? open_after_bake_in) && (dt <? close_before_bake_out))
  | Value _ => Value false
  end.

(** [RealTimeTrading._consume] with the exception. The test
    [not self._bypass_update_window and not self.inside_update_window(...)]
    calls the window, and with it the calendar, only when the bypass is off;
    the exception leaves [_consume] before anything is logged or written. *)
Definition _consume_raising (self : RealTimeTrading) (raw_ticker : RawTicker)
  : raising (RealTimeTrading * list effect) :=
  match (if _bypass_update_window self then Value true
         else inside_update_window_raising self (rt_time raw_ticker)) with
  | DateOutOfBounds => DateOutOfBounds
  | Value false =>
      Value (self, [LogWarning "ticker is outside update window: %s"])
  | Value true =>
      if isnan (rt_last raw_ticker)
      then Value (self, [LogWarning "ticker has nan last price: %s"])
      else
        match PyDict.get String.eqb (tickers self) (rt_symbol raw_ticker) with
        | None => Value (self, [LogWarning "ticker not found for symbol: %s"])
        | Some intraday_ticker =>
            let '(updated, t') := update intraday_ticker raw_ticker in
            let self' :=
              set_tickers self
                (PyDict.set String.eqb (tickers self) (rt_symbol raw_ticker)
                   t') in
            if updated
            then Value (_check_top_symbols self' (rt_time raw_ticker))
            else Value (self', [])
        end
  end.

(** [RealTimeTrading.consume] with the exception, which ends the loop. *)
Fixpoint consume_raising (self : RealTimeTrading) (msgs : list RawTicker)
  : raising (RealTimeTrading * list effect) :=
  match msgs with
  | [] => Value (self, [])
  | msg :: rest =>
      match _consume_raising self msg with
      | DateOutOfBounds => DateOutOfBounds
      | Value (self1, tr1) =>
          match consume_raising self1 rest with
          | DateOutOfBounds => DateOutOfBounds
          | Value (self2, tr2) => Value (self2, tr1 ++ tr2)
          end
      end
  end.

(** Whether [_consume] gets to the calendar with a date it does not cover. *)
Definition asks_beyond_range (self : RealTimeTrading) (raw_ticker : RawTicker)
  : bool :=
  negb (_bypass_update_window self)
  && negb (covers (datetime2datestr (rt_time raw_ticker))).

End EngineRaising.

(** The range of the weekday calendar: the dates from 1 January 2004 (day
    12418) to 31 December 2025 (day 20453). *)
Definition weekday_range : CalendarRange := {|
  covers := fun date => (12418 <=? date) && (date <=? 20453)
|}.

(** Saturday 6 January 2024, 15:00: day 19728 is within the range and is no
    session. *)
Definition saturday_2024_1500 : UTCDateTime :=
  19728 * microseconds_per_day + timedelta_minutes 900.

(** A price that is not a number, at an instant the calendar covers and that
    is outside every session. *)
Definition event_nan_saturday_2024 : RawTicker :=
  mkRawTicker "A" FNaN saturday_2024_1500.

(** The step of an engine under the weekday calendar and its range. *)
Definition step_windowed
  : RealTimeTrading -> RawTicker -> raising (RealTimeTrading * list effect) :=
  @_consume_raising weekday_calendar weekday_range deviation.

(** * Properties *)

(** ** The stable sort *)

Lemma insert_by_gap_below (t : IntradayTicker) (l : list IntradayTicker) :
  Forall (gap_le t) l -> insert_by_gap t l = t :: l.
Proof.
  destruct l as [|h r]; simpl; [reflexivity|].
  intros H. apply Forall_inv in H. unfold gap_le in H.
  destruct (gap t <=? gap h) eqn:E; [reflexivity|].
  apply Z.leb_gt in E. lia.
Qed.

Lemma insert_by_gap_In (t e : IntradayTicker) (l : list IntradayTicker) :
  In e (insert_by_gap t l) <-> e = t \/ In e l.
Proof.
  induction l as [|h r IH]; simpl.
  - intuition congruence.
  - destruct (gap t <=? gap h); simpl; [intuition congruence|].
    rewrite IH. intuition congruence.
Qed.

Lemma insert_by_gap_sorted (t : IntradayTicker) (l : list IntradayTicker) :
  StronglySorted gap_le l -> StronglySorted gap_le (insert_by_gap t l).
Proof.
  induction 1 as [|h r Hs IH Hh]; simpl.
  - constructor; constructor.
  - destruct (gap t <=? gap h) eqn:E.
    + apply Z.leb_le in E. constructor.
      * constructor; assumption.
      * constructor; [exact E|].
        eapply Forall_impl; [|exact Hh].
        unfold gap_le. intros a Ha. lia.
    + apply Z.leb_gt in E. constructor; [exact IH|].
      apply Forall_forall. intros e He.
      apply insert_by_gap_In in He. destruct He as [->|He].
      * unfold gap_le. lia.
      * rewrite Forall_forall in Hh. apply Hh, He.
Qed.

Lemma sort_by_gap_sorted (l : list IntradayTicker) :
  StronglySorted gap_le (sort_by_gap l).
Proof.
  induction l as [|t r IH]; simpl.
  - constructor.
  - apply insert_by_gap_sorted, IH.
Qed.

Lemma insert_by_gap_perm (t : IntradayTicker) (l : list IntradayTicker) :
  Permutation (insert_by_gap t l) (t :: l).
Proof.
  induction l as [|h r IH]; simpl.
  - apply Permutation_refl.
  - destruct (gap t <=? gap h).
    + apply Permutation_refl.
    + eapply Permutation_trans; [apply perm_skip, IH|apply perm_swap].
Qed.

Lemma sort_by_gap_perm (l : list IntradayTicker) :
  Permutation (sort_by_gap l) l.
Proof.
  induction l as [|t r IH]; simpl.
  - apply Permutation_refl.
  - eapply Permutation_trans; [apply insert_by_gap_perm|].
    apply perm_skip, IH.
Qed.

(** Filtering commutes with an insertion into a sorted list. *)
Lemma filter_insert_by_gap (p : IntradayTicker -> bool) (t : IntradayTicker)
  (l : list IntradayTicker) :
  StronglySorted gap_le l ->
  filter p (insert_by_gap t l)
  = if p t then insert_by_gap t (filter p l) else filter p l.
Proof.
  induction 1 as [|h r Hs IH Hh]; simpl.
  - destruct (p t); reflexivity.
  - destruct (gap t <=? gap h) eqn:E.
    + apply Z.leb_le in E. simpl.
      destruct (p t) eqn:Pt; [|reflexivity].
      change (if p h then h :: filter p r else filter p r)
        with (filter p (h :: r)).
      symmetry. apply insert_by_gap_below.
      assert (Hall : Forall (gap_le t) (h :: r)).
      { constructor; [exact E|].
        eapply Forall_impl; [|exact Hh]. unfold gap_le. intros a Ha. lia. }
      apply Forall_forall. intros e He.
      apply filter_In in He. rewrite Forall_forall in Hall.
      apply Hall, He.
    + simpl. rewrite IH. destruct (p h) eqn:Ph; destruct (p t) eqn:Pt;
        simpl; rewrite ?E; reflexivity.
Qed.

(** Sorting then filtering is filtering then sorting. *)
Lemma filter_sort_by_gap (p : IntradayTicker -> bool)
  (l : list IntradayTicker) :
  filter p (sort_by_gap l) = sort_by_gap (filter p l).
Proof.
  induction l as [|t r IH]; simpl; [reflexivity|].
  rewrite filter_insert_by_gap by apply sort_by_gap_sorted.
  rewrite IH. destruct (p t); reflexivity.
Qed.

(** Stability: the tickers of one gap keep their order through an insertion,
    and so through the sort. *)
Lemma has_gap_insert_by_gap (g : Z) (t : IntradayTicker)
  (l : list IntradayTicker) :
  filter (has_gap g) (insert_by_gap t l)
  = if has_gap g t then t :: filter (has_gap g) l else filter (has_gap g) l.
Proof.
  induction l as [|h r IH]; simpl.
  - destruct (has_gap g t); reflexivity.
  - destruct (gap t <=? gap h) eqn:E; simpl.
    + destruct (has_gap g t); reflexivity.
    + rewrite IH. apply Z.leb_gt in E. unfold has_gap.
      destruct (gap h =? g) eqn:Hh; destruct (gap t =? g) eqn:Ht;
        try reflexivity.
      apply Z.eqb_eq in Hh, Ht. lia.
Qed.

Lemma sort_by_gap_stable (g : Z) (l : list IntradayTicker) :
  filter (has_gap g) (sort_by_gap l) = filter (has_gap g) l.
Proof.
  induction l as [|t r IH]; simpl; [reflexivity|].
  rewrite has_gap_insert_by_gap, IH. reflexivity.
Qed.

(** A sorted list is determined by the tickers of each gap, taken in order:
    there is one stable ascending arrangement of a list. *)
Lemma sorted_stable_unique (l1 l2 : list IntradayTicker) :
  StronglySorted gap_le l1 -> StronglySorted gap_le l2 ->
  (forall g, filter (has_gap g) l1 = filter (has_gap g) l2) ->
  l1 = l2.
Proof.
  intros H1. revert l2.
  induction H1 as [|x r1 Hs1 IH Hx]; intros l2 H2 Heq.
  - destruct l2 as [|y r2]; [reflexivity|].
    specialize (Heq (gap y)). simpl in Heq. unfold has_gap in Heq.
    rewrite Z.eqb_refl in Heq. discriminate.
  - destruct H2 as [|y r2 Hs2 Hy].
    + specialize (Heq (gap x)). simpl in Heq. unfold has_gap in Heq.
      rewrite Z.eqb_refl in Heq. discriminate.
    + assert (Hxy : gap y <= gap x).
      { assert (In x (filter (has_gap (gap x)) (y :: r2))) as Hin.
        { rewrite <- Heq. simpl. unfold has_gap. rewrite Z.eqb_refl.
          left; reflexivity. }
        apply filter_In in Hin. destruct Hin as [[->|Hin] _]; [lia|].
        rewrite Forall_forall in Hy. apply Hy, Hin. }
      assert (Hyx : gap x <= gap y).
      { assert (In y (filter (has_gap (gap y)) (x :: r1))) as Hin.
        { rewrite Heq. simpl. unfold has_gap. rewrite Z.eqb_refl.
          left; reflexivity. }
        apply filter_In in Hin. destruct Hin as [[->|Hin] _]; [lia|].
        rewrite Forall_forall in Hx. apply Hx, Hin. }
      assert (Hg : gap x = gap y) by lia.
      assert (x = y) as ->.
      { specialize (Heq (gap x)). simpl in Heq. unfold has_gap in Heq.
        rewrite Z.eqb_refl in Heq. rewrite <- Hg, Z.eqb_refl in Heq.
        congruence. }
      f_equal. apply IH; [exact Hs2|].
      intros g. specialize (Heq g). simpl in Heq.
      destruct (has_gap g y); congruence.
Qed.

(** ** Order of two elements in a list *)

Section Precedes.
Context {A : Type}.
Implicit Types (a b : A) (l : list A).

Lemma In_firstn_In n a l : In a (firstn n l) -> In a l.
Proof.
  revert l. induction n as [|n IH]; intros [|h r]; simpl; try tauto.
  intros [H|H]; [left; exact H|right; apply IH, H].
Qed.

Lemma precedes_split a b l :
  precedes a b l <-> exists l1 l2 l3, l = l1 ++ a :: l2 ++ b :: l3.
Proof.
  split.
  - induction 1 as [l Hin|x l _ IH].
    + apply in_split in Hin. destruct Hin as (l2 & l3 & ->).
      exists [], l2, l3. reflexivity.
    + destruct IH as (l1 & l2 & l3 & ->).
      exists (x :: l1), l2, l3. reflexivity.
  - intros (l1 & l2 & l3 & ->). induction l1 as [|x l1 IH]; simpl.
    + apply precedes_here. apply in_or_app. right; left; reflexivity.
    + apply precedes_later, IH.
Qed.

Lemma precedes_filter_inv (p : A -> bool) a b l :
  precedes a b (filter p l) -> precedes a b l.
Proof.
  induction l as [|h r IH]; simpl; intros H.
  - inversion H.
  - destruct (p h).
    + inversion H as [l' Hin|x l' Hp]; subst.
      * apply precedes_here. apply filter_In in Hin. apply Hin.
      * apply precedes_later, IH, Hp.
    + apply precedes_later, IH, H.
Qed.

Lemma precedes_filter (p : A -> bool) a b l :
  precedes a b l -> p a = true -> p b = true -> precedes a b (filter p l).
Proof.
  intros H Pa Pb. induction H as [l Hin|x l _ IH]; simpl.
  - rewrite Pa. apply precedes_here. apply filter_In. split; assumption.
  - destruct (p x); [apply precedes_later|]; exact IH.
Qed.

Lemma precedes_firstn_inv n a b l :
  precedes a b (firstn n l) -> precedes a b l.
Proof.
  revert l. induction n as [|n IH]; intros [|h r]; simpl; intros H;
    try (inversion H; fail).
  inversion H as [l' Hin|x l' Hp]; subst.
  - apply precedes_here. eapply In_firstn_In, Hin.
  - apply precedes_later, IH, Hp.
Qed.

Lemma precedes_slice_to_inv n a b l :
  precedes a b (slice_to l n) -> precedes a b l.
Proof.
  unfold slice_to. destruct (0 <=? n); apply precedes_firstn_inv.
Qed.

Lemma precedes_app_insert a b x l1 l2 :
  precedes a b (l1 ++ l2) -> precedes a b (l1 ++ x :: l2).
Proof.
  induction l1 as [|h r IH]; simpl; intros H.
  - apply precedes_later, H.
  - inversion H as [l' Hin|y l' Hp]; subst.
    + apply precedes_here. apply in_app_or in Hin. apply in_or_app.
      destruct Hin as [Hin|Hin]; [left; exact Hin|right; right; exact Hin].
    + apply precedes_later, IH, Hp.
Qed.

End Precedes.

Lemma precedes_map {A B : Type} (f : A -> B) (a b : A) (l : list A) :
  precedes a b l -> precedes (f a) (f b) (map f l).
Proof.
  induction 1 as [l Hin|x l _ IH]; simpl.
  - apply precedes_here, in_map, Hin.
  - apply precedes_later, IH.
Qed.

Lemma precedes_map_inv {A B : Type} (f : A -> B) (x y : B) (l : list A) :
  precedes x y (map f l) ->
  exists a b, f a = x /\ f b = y /\ precedes a b l.
Proof.
  induction l as [|h r IH]; simpl; intros H.
  - inversion H.
  - inversion H as [l' Hin|z l' Hp]; subst.
    + apply in_map_iff in Hin. destruct Hin as (b & Hb & Hin).
      exists h, b. repeat split; [exact Hb|apply precedes_here, Hin].
    + destruct (IH Hp) as (a & b & Ha & Hb & Hab).
      exists a, b. repeat split; try assumption. apply precedes_later, Hab.
Qed.

(** ** The ticker dictionary *)

Section DictFacts.
Context {V : Type}.
Implicit Types (d : list (string * V)) (k : string) (v : V).

Lemma get_set_same d k v :
  PyDict.get String.eqb (PyDict.set String.eqb d k v) k = Some v.
Proof.
  induction d as [|[k' v'] r IH]; simpl.
  - rewrite String.eqb_refl. reflexivity.
  - destruct (String.eqb k' k) eqn:E; simpl; rewrite E; [reflexivity|exact IH].
Qed.

Lemma set_get_same d k v :
  PyDict.get String.eqb d k = Some v -> PyDict.set String.eqb d k v = d.
Proof.
  induction d as [|[k' v'] r IH]; simpl; [discriminate|].
  destruct (String.eqb k' k); intros H.
  - congruence.
  - rewrite IH by exact H. reflexivity.
Qed.

Lemma set_set_same d k v :
  PyDict.set String.eqb (PyDict.set String.eqb d k v) k v
  = PyDict.set String.eqb d k v.
Proof. apply set_get_same, get_set_same. Qed.

Lemma get_Some_In_keys d k v :
  PyDict.get String.eqb d k = Some v -> In k (PyDict.keys d).
Proof.
  induction d as [|[k' v'] r IH]; simpl; [discriminate|].
  destruct (String.eqb_spec k' k); intros H; [left; assumption|].
  right. apply IH, H.
Qed.

Lemma keys_set_old d k v :
  In k (PyDict.keys d) -> PyDict.keys (PyDict.set String.eqb d k v) = PyDict.keys d.
Proof.
  induction d as [|[k' v'] r IH]; simpl; [tauto|].
  destruct (String.eqb_spec k' k); intros H; simpl; [reflexivity|].
  destruct H as [H|H]; [contradiction|].
  f_equal. apply IH, H.
Qed.

Lemma keys_set_new d k v :
  ~ In k (PyDict.keys d) ->
  PyDict.keys (PyDict.set String.eqb d k v) = PyDict.keys d ++ [k].
Proof.
  induction d as [|[k' v'] r IH]; simpl; intros H; [reflexivity|].
  destruct (String.eqb_spec k' k); [tauto|]. simpl.
  f_equal. apply IH. tauto.
Qed.

Lemma Forall_set (P : string * V -> Prop) d k v :
  Forall P d -> (forall k', k' = k -> P (k', v)) ->
  Forall P (PyDict.set String.eqb d k v).
Proof.
  intros Hd Hv. induction Hd as [|[k' v'] r Hh Hr IH]; simpl.
  - constructor; [apply Hv; reflexivity|constructor].
  - destruct (String.eqb_spec k' k).
    + constructor; [apply Hv; assumption|assumption].
    + constructor; assumption.
Qed.

End DictFacts.

Lemma symbols_of_values (d : list (string * IntradayTicker)) :
  Forall key_is_symbol d ->
  map (fun t => symbol (contract t)) (PyDict.values d) = PyDict.keys d.
Proof.
  unfold PyDict.values, PyDict.keys.
  induction 1 as [|[k t] r Hh _ IH]; simpl; [reflexivity|].
  unfold key_is_symbol in Hh. simpl in Hh. rewrite Hh, IH. reflexivity.
Qed.

Section EngineFacts.
Context {cal : Calendar} {gm : GapModel}.

Lemma update_contract (t : IntradayTicker) (rt : RawTicker) :
  contract (snd (update t rt)) = contract t
  /\ reference (snd (update t rt)) = reference t.
Proof.
  unfold update. destruct (rt_last rt) as [|price]; simpl; [tauto|].
  destruct (compute_gap (reference t) price =? gap t); simpl; tauto.
Qed.

(** [_check_top_symbols] touches nothing but the two stored snapshots. *)
Lemma check_top_symbols_frame (self : RealTimeTrading) (time : UTCDateTime) :
  let self' := fst (_check_top_symbols self time) in
  tickers self' = tickers self
  /\ bake_in_minutes self' = bake_in_minutes self
  /\ bake_out_minutes self' = bake_out_minutes self
  /\ n_top_tickers self' = n_top_tickers self
  /\ n_bottom_tickers self' = n_bottom_tickers self
  /\ _bypass_update_window self' = _bypass_update_window self.
Proof.
  unfold _check_top_symbols.
  destruct (is_none_or_differs (top_n_symbols self) _); simpl;
    destruct (is_none_or_differs _ _); simpl; repeat split; reflexivity.
Qed.

(** The construction keys the tickers by the symbols of the contracts, each
    at the place of its first occurrence. *)
Lemma init_tickers_order (contracts : list Stock)
  (d : list (string * IntradayTicker)) (a b : string) :
  precedes a b
    (PyDict.keys
       (fold_left
          (fun d c => PyDict.set String.eqb d (symbol c) (new_ticker c))
          contracts d)) ->
  precedes a b (PyDict.keys d ++ map symbol contracts).
Proof.
  revert d. induction contracts as [|c cs IH]; intros d H; simpl in *.
  - rewrite app_nil_r. exact H.
  - apply IH in H.
    destruct (in_dec string_dec (symbol c) (PyDict.keys d)) as [Hin|Hin].
    + rewrite keys_set_old in H by exact Hin.
      apply precedes_app_insert, H.
    + rewrite keys_set_new in H by exact Hin.
      rewrite <- app_assoc in H. exact H.
Qed.

Lemma init_tickers_keyed (contracts : list Stock)
  (d : list (string * IntradayTicker)) :
  Forall key_is_symbol d ->
  Forall key_is_symbol
    (fold_left
       (fun d c => PyDict.set String.eqb d (symbol c) (new_ticker c))
       contracts d).
Proof.
  revert d. induction contracts as [|c cs IH]; intros d H; simpl;
    [exact H|].
  apply IH. apply Forall_set; [exact H|].
  intros k' ->. reflexivity.
Qed.

(** One message changes neither the keys of the dictionary, nor their order,
    nor the symbol a ticker carries. *)
Lemma consume_step_keys (self : RealTimeTrading) (rt : RawTicker) :
  PyDict.keys (tickers (fst (_consume self rt))) = PyDict.keys (tickers self).
Proof.
  unfold _consume.
  destruct (negb _ && negb _); [reflexivity|].
  destruct (isnan _); [reflexivity|].
  destruct (PyDict.get _ _ _) as [t|] eqn:G; [|reflexivity].
  destruct (update t rt) as [updated t'].
  destruct updated.
  - destruct (check_top_symbols_frame
                (set_tickers self
                   (PyDict.set String.eqb (tickers self) (rt_symbol rt) t'))
                (rt_time rt)) as [-> _].
    simpl. apply keys_set_old. eapply get_Some_In_keys, G.
  - simpl. apply keys_set_old. eapply get_Some_In_keys, G.
Qed.

Lemma get_Some_keyed (d : list (string * IntradayTicker)) (k : string)
  (t : IntradayTicker) :
  Forall key_is_symbol d -> PyDict.get String.eqb d k = Some t ->
  symbol (contract t) = k.
Proof.
  induction 1 as [|[k' t'] r Hh _ IH]; simpl; [discriminate|].
  destruct (String.eqb_spec k' k); intros H.
  - injection H as <-. unfold key_is_symbol in Hh. simpl in Hh. congruence.
  - apply IH, H.
Qed.

Lemma consume_step_keyed (self : RealTimeTrading) (rt : RawTicker) :
  Forall key_is_symbol (tickers self) ->
  Forall key_is_symbol (tickers (fst (_consume self rt))).
Proof.
  intros Hk. unfold _consume.
  destruct (negb _ && negb _); [exact Hk|].
  destruct (isnan _); [exact Hk|].
  destruct (PyDict.get _ _ _) as [t|] eqn:G; [|exact Hk].
  pose proof (update_contract t rt) as [Hc _].
  destruct (update t rt) as [updated t']. simpl in Hc.
  assert (Hset : Forall key_is_symbol
                   (PyDict.set String.eqb (tickers self) (rt_symbol rt) t')).
  { apply Forall_set; [exact Hk|]. intros k' ->.
    unfold key_is_symbol. simpl. rewrite Hc.
    eapply get_Some_keyed; eassumption. }
  destruct updated.
  - destruct (check_top_symbols_frame
                (set_tickers self
                   (PyDict.set String.eqb (tickers self) (rt_symbol rt) t'))
                (rt_time rt)) as [-> _].
    exact Hset.
  - exact Hset.
Qed.

Lemma consume_keys (msgs : list RawTicker) (self : RealTimeTrading) :
  PyDict.keys (tickers (fst (consume self msgs))) = PyDict.keys (tickers self)
  /\ (Forall key_is_symbol (tickers self) ->
      Forall key_is_symbol (tickers (fst (consume self msgs)))).
Proof.
  revert self. induction msgs as [|m rest IH]; intros self; simpl.
  - tauto.
  - pose proof (consume_step_keys self m) as Hk.
    pose proof (consume_step_keyed self m) as Hs.
    destruct (_consume self m) as [self1 tr1]. simpl in Hk, Hs.
    specialize (IH self1).
    destruct (consume self1 rest) as [self2 tr2]. simpl in *.
    destruct IH as [IH1 IH2]. split; [congruence|tauto].
Qed.

End EngineFacts.

(** * The claims *)

(** ** Session window *)

Section Window.
Context {cal : Calendar} {range : CalendarRange} {gm : GapModel}.


End Window.

(** ** Ranking and the two snapshots *)

Lemma slice_to_firstn {A : Type} (l : list A) (n : Z) :
  0 <= n -> slice_to l n = firstn (Z.to_nat n) l.
Proof.
  intros H. unfold slice_to.
  destruct (0 <=? n) eqn:E; [reflexivity|]. apply Z.leb_gt in E. lia.
Qed.

(** Either side is cut from the sorted tickers of its sign: filtering the
    ranking is ranking the filtered tickers. *)
Lemma side_of_ranking (p : IntradayTicker -> bool) (self : RealTimeTrading)
  (n : Z) :
  slice_to (filter p (rank_tickers self)) n
  = slice_to (sort_by_gap (filter p (PyDict.values (tickers self)))) n.
Proof. unfold rank_tickers. rewrite filter_sort_by_gap. reflexivity. Qed.

(** C7. The bottom snapshot holds the tickers with a gap below 0, in
    ascending order of gap (the most negative first), cut to the first [n]:
    it is the first [n] of a sorted arrangement of exactly those tickers. *)
Theorem bottom_snapshot_spec (self : RealTimeTrading) (time : UTCDateTime)
  (n : Z) :
  0 <= n ->
  let negatives :=
    filter (fun t => gap t <? 0) (PyDict.values (tickers self)) in
  get_bottom_n_tickers time (rank_tickers self) n
  = from_tickers time (firstn (Z.to_nat n) (sort_by_gap negatives))
  /\ Permutation (sort_by_gap negatives) negatives
  /\ StronglySorted gap_le (sort_by_gap negatives)
  /\ (forall t, In t negatives <->
                In t (PyDict.values (tickers self)) /\ gap t < 0).
Proof.
  intros Hn negatives. split; [|split; [|split]].
  - unfold get_bottom_n_tickers. rewrite side_of_ranking.
    rewrite slice_to_firstn by exact Hn. reflexivity.
  - apply sort_by_gap_perm.
  - apply sort_by_gap_sorted.
  - intros t. unfold negatives. rewrite filter_In, Z.ltb_lt. reflexivity.
Qed.

Lemma bottom_snapshot_spec_witness :
  0 <= 2
  /\ tns_symbols (get_bottom_n_tickers 0 (rank_tickers engine_mixed) 2)
     = [mkTopSymbol "C" (-7); mkTopSymbol "A" (-5)].
Proof.
  split; [lia|].
  destruct (bottom_snapshot_spec engine_mixed 0 2) as [H _]; [lia|].
  rewrite H. reflexivity.
Defined.

(** The top side is cut the same way from the ascending ranking: it holds the
    first [n] of the tickers with a gap above 0 in ascending order, that is
    the [n] smallest positive gaps. *)
Lemma top_snapshot_ascending (self : RealTimeTrading) (time : UTCDateTime)
  (n : Z) :
  0 <= n ->
  let positives :=
    filter (fun t => gap t >? 0) (PyDict.values (tickers self)) in
  get_top_n_tickers time (rank_tickers self) n
  = from_tickers time (firstn (Z.to_nat n) (sort_by_gap positives))
  /\ StronglySorted gap_le (sort_by_gap positives).
Proof.
  intros Hn positives. split.
  - unfold get_top_n_tickers. rewrite side_of_ranking.
    rewrite slice_to_firstn by exact Hn. reflexivity.
  - apply sort_by_gap_sorted.
Qed.

(** C1. In the scenario (universe A, B, C; gaps +5, +3, +7; two symbols a
    side) the engine publishes the top snapshots [(A,5)] and [(B,3),(A,5)]
    and nothing for the update of C: the snapshot stored and last published
    after the three updates is [(B,3),(A,5)], the two smallest positive
    gaps in ascending order, and not [(C,7),(A,5)]. *)
Theorem top_snapshot_scenario_ABC :
  let self := fst (run_ABC engine_ABC events_ABC) in
  let tr := snd (run_ABC engine_ABC events_ABC) in
  let sent_top :=
    flat_map
      (fun e =>
         match e with
         | Send TOP_HIGH_EVENT s => [tns_symbols s]
         | _ => []
         end) tr in
  sent_top = [[mkTopSymbol "A" 5]; [mkTopSymbol "B" 3; mkTopSymbol "A" 5]]
  /\ option_map tns_symbols (top_n_symbols self)
     = Some [mkTopSymbol "B" 3; mkTopSymbol "A" 5]
  /\ tns_symbols
       (get_top_n_tickers (friday_1500 + 2) (rank_tickers self)
          (n_top_tickers self))
     = [mkTopSymbol "B" 3; mkTopSymbol "A" 5]
  /\ option_map tns_symbols (top_n_symbols self)
     <> Some [mkTopSymbol "C" 7; mkTopSymbol "A" 5].
Proof.
  assert (E : option_map tns_symbols
                (top_n_symbols (fst (run_ABC engine_ABC events_ABC)))
              = Some [mkTopSymbol "B" 3; mkTopSymbol "A" 5])
    by (vm_compute; reflexivity).
  cbv zeta. rewrite E. split; [|split; [|split]].
  - vm_compute. reflexivity.
  - reflexivity.
  - vm_compute. reflexivity.
  - intros H. discriminate H.
Qed.

(** ** The per-event pipeline *)

Section Pipeline.
Context {cal : Calendar} {range : CalendarRange} {gm : GapModel}.

(** An accepted event whose update reports a change goes on to
    [_check_top_symbols], on the engine with the updated ticker. *)
Lemma consume_step_accepted (self : RealTimeTrading) (rt : RawTicker) :
  reports_change self rt = true ->
  exists t,
    PyDict.get String.eqb (tickers self) (rt_symbol rt) = Some t
    /\ fst (update t rt) = true
    /\ _consume self rt
       = _check_top_symbols
           (set_tickers self
              (PyDict.set String.eqb (tickers self) (rt_symbol rt)
                 (snd (update t rt))))
           (rt_time rt).
Proof.
  unfold reports_change, _consume. rewrite !andb_true_iff, negb_true_iff.
  intros [[Hw Hn] Hu]. rewrite <- negb_orb, Hw, Hn. simpl.
  destruct (PyDict.get String.eqb (tickers self) (rt_symbol rt)) as [t|];
    [|discriminate].
  exists t. destruct (update t rt) as [updated t']. simpl in *.
  subst updated. repeat split; reflexivity.
Qed.

(** Any other event publishes nothing and leaves the stored snapshots and the
    configuration as they were. *)
Lemma consume_step_no_change (self : RealTimeTrading) (rt : RawTicker) :
  reports_change self rt = false ->
  published (snd (_consume self rt)) = []
  /\ top_n_symbols (fst (_consume self rt)) = top_n_symbols self
  /\ bottom_n_symbols (fst (_consume self rt)) = bottom_n_symbols self.
Proof.
  unfold reports_change, _consume. rewrite <- negb_orb.
  destruct (_bypass_update_window self || inside_update_window self _);
    simpl; [|tauto].
  destruct (isnan (rt_last rt)); simpl; [tauto|].
  destruct (PyDict.get String.eqb (tickers self) (rt_symbol rt)) as [t|];
    [|tauto].
  destruct (update t rt) as [updated t']. simpl. intros ->. simpl. tauto.
Qed.

(** With nothing stored yet, both sides are published, top first. *)
Lemma check_top_symbols_first (self : RealTimeTrading) (time : UTCDateTime) :
  top_n_symbols self = None -> bottom_n_symbols self = None ->
  let top :=
    get_top_n_tickers time (rank_tickers self) (n_top_tickers self) in
  let bottom :=
    get_bottom_n_tickers time (rank_tickers self) (n_bottom_tickers self) in
  _check_top_symbols self time
  = (set_bottom_n_symbols (set_top_n_symbols self (Some top)) (Some bottom),
     [Send TOP_HIGH_EVENT top; LogInfo "sending top high event";
      Send TOP_LOW_EVENT bottom; LogInfo "sending top low event"]).
Proof.
  intros Ht Hb. unfold _check_top_symbols. rewrite Ht. simpl.
  rewrite Hb. reflexivity.
Qed.

Lemma quiet_keeps_none (msgs : list RawTicker) (self : RealTimeTrading) :
  quiet self msgs = true ->
  top_n_symbols self = None -> bottom_n_symbols self = None ->
  top_n_symbols (fst (consume self msgs)) = None
  /\ bottom_n_symbols (fst (consume self msgs)) = None
  /\ published (snd (consume self msgs)) = [].
Proof.
  revert self. induction msgs as [|m rest IH]; intros self; simpl.
  - tauto.
  - rewrite andb_true_iff, negb_true_iff. intros [Hm Hq] Ht Hb.
    destruct (consume_step_no_change self m Hm) as (Hp & Ht' & Hb').
    destruct (_consume self m) as [self1 tr1]. simpl in *.
    specialize (IH self1 Hq).
    destruct (consume self1 rest) as [self2 tr2]. simpl in *.
    destruct IH as (IH1 & IH2 & IH3); [congruence|congruence|].
    repeat split; try assumption.
    unfold published in *. rewrite filter_app, Hp, IH3. reflexivity.
Qed.

(** With the exception in the picture, [_consume] raises when it gets to the
    calendar with a date the calendar does not cover, and is the step
    without the exception otherwise. *)
Lemma consume_raising_step (self : RealTimeTrading) (rt : RawTicker) :
  _consume_raising self rt
  = if asks_beyond_range self rt then DateOutOfBounds
    else Value (_consume self rt).
Proof.
  unfold _consume_raising, asks_beyond_range, _consume,
    inside_update_window_raising, get_market_open_close_raising,
    inside_update_window, get_market_open_close.
  destruct (_bypass_update_window self); cbn [negb andb].
  - destruct (isnan (rt_last rt)); [reflexivity|].
    destruct (PyDict.get String.eqb (tickers self) (rt_symbol rt)) as [t|];
      [|reflexivity].
    destruct (update t rt) as [[|] t']; reflexivity.
  - destruct (covers (datetime2datestr (rt_time rt))); cbn [negb];
      [|reflexivity].
    destruct (is_session (datetime2datestr (rt_time rt))); cbn [negb];
      [|reflexivity].
    destruct ((rt_time rt >=? _) && (rt_time rt <? _)); cbn [negb];
      [|reflexivity].
    destruct (isnan (rt_last rt)); [reflexivity|].
    destruct (PyDict.get String.eqb (tickers self) (rt_symbol rt)) as [t|];
      [|reflexivity].
    destruct (update t rt) as [[|] t']; reflexivity.
Qed.

(** C3, as the engine has it. The window filter comes first, then the
    validity filter, then the universe filter. With the bypass off the
    window filter asks the calendar, which raises on a date it does not
    cover: the exception leaves [_consume] and no filter is reached. In
    every other case an event outside the window is dropped on that account
    whatever its price and symbol, a not-a-number price is dropped next
    whatever the symbol, and an unknown symbol last; each drop returns with
    the engine as it was and one warning, and sends nothing. *)
Theorem consume_filter_order (self : RealTimeTrading) (rt : RawTicker) :
  let outside :=
    negb (_bypass_update_window self)
    && negb (inside_update_window self (rt_time rt)) in
  (asks_beyond_range self rt = true ->
   _consume_raising self rt = DateOutOfBounds)
  /\ (asks_beyond_range self rt = false ->
      (outside = true ->
       _consume_raising self rt
       = Value (self, [LogWarning "ticker is outside update window: %s"]))
      /\ (outside = false -> isnan (rt_last rt) = true ->
          _consume_raising self rt
          = Value (self, [LogWarning "ticker has nan last price: %s"]))
      /\ (outside = false -> isnan (rt_last rt) = false ->
          PyDict.get String.eqb (tickers self) (rt_symbol rt) = None ->
          _consume_raising self rt
          = Value (self, [LogWarning "ticker not found for symbol: %s"]))).
Proof.
  intros outside. rewrite consume_raising_step.
  split; [intros ->; reflexivity|].
  intros ->. unfold _consume. fold outside.
  split; [|split].
  - intros ->. reflexivity.
  - intros -> ->. reflexivity.
  - intros -> -> ->. reflexivity.
Qed.

(** C4, as the engine has it. When the bypass is set or the calendar covers
    the date of the event, an event that a filter rejects (a not-a-number
    price, an instant outside the window while the bypass is off, or a
    symbol outside the universe) returns normally with the engine unchanged
    and one warning: no ticker is touched, no stored snapshot replaced, and
    nothing is published. *)
Theorem rejected_event_changes_nothing (self : RealTimeTrading)
  (rt : RawTicker) :
  asks_beyond_range self rt = false ->
  isnan (rt_last rt) = true
  \/ (_bypass_update_window self = false
      /\ inside_update_window self (rt_time rt) = false)
  \/ PyDict.get String.eqb (tickers self) (rt_symbol rt) = None ->
  exists warning,
    _consume_raising self rt = Value (self, [LogWarning warning])
    /\ published [LogWarning warning] = [].
Proof.
  intros Hr H. rewrite consume_raising_step, Hr. unfold _consume.
  destruct (negb (_bypass_update_window self)
            && negb (inside_update_window self (rt_time rt))) eqn:W.
  - eexists. split; reflexivity.
  - destruct (isnan (rt_last rt)) eqn:N.
    + eexists. split; reflexivity.
    + destruct (PyDict.get String.eqb (tickers self) (rt_symbol rt))
        as [t|] eqn:G.
      * exfalso. destruct H as [H|[[H1 H2]|H]]; try discriminate.
        rewrite H1, H2 in W. discriminate.
      * eexists. split; reflexivity.
Qed.

End Pipeline.

(** ** Publishing *)

Section Publishing.
Context {cal : Calendar} {gm : GapModel}.

(** C2. On an accepted event whose update reports a change both snapshots are
    computed anew from the updated tickers; each side on its own is published
    once and stored exactly when it differs from the snapshot last published
    on that side (or none was), and is neither published nor replaced when it
    equals it; the top event precedes the bottom event. *)
Theorem consume_publishes_changed_sides (self : RealTimeTrading)
  (rt : RawTicker) (t : IntradayTicker) :
  reports_change self rt = true ->
  PyDict.get String.eqb (tickers self) (rt_symbol rt) = Some t ->
  let updated :=
    PyDict.set String.eqb (tickers self) (rt_symbol rt) (snd (update t rt)) in
  let ranked := sort_by_gap (PyDict.values updated) in
  let top := get_top_n_tickers (rt_time rt) ranked (n_top_tickers self) in
  let bottom :=
    get_bottom_n_tickers (rt_time rt) ranked (n_bottom_tickers self) in
  let top_differs := is_none_or_differs (top_n_symbols self) top in
  let bottom_differs := is_none_or_differs (bottom_n_symbols self) bottom in
  published (snd (_consume self rt))
  = (if top_differs then [Send TOP_HIGH_EVENT top] else [])
    ++ (if bottom_differs then [Send TOP_LOW_EVENT bottom] else [])
  /\ top_n_symbols (fst (_consume self rt))
     = (if top_differs then Some top else top_n_symbols self)
  /\ bottom_n_symbols (fst (_consume self rt))
     = (if bottom_differs then Some bottom else bottom_n_symbols self)
  /\ tickers (fst (_consume self rt)) = updated.
Proof.
  intros Hc Hg updated ranked top bottom top_differs bottom_differs.
  destruct (consume_step_accepted self rt Hc) as (t0 & Hg0 & _ & ->).
  assert (t0 = t) as -> by congruence.
  unfold _check_top_symbols, rank_tickers.
  cbn [tickers top_n_symbols bottom_n_symbols n_top_tickers
       n_bottom_tickers set_tickers].
  fold updated. fold ranked. fold top. fold top_differs.
  destruct top_differs;
    cbn [tickers top_n_symbols bottom_n_symbols n_top_tickers
         n_bottom_tickers set_tickers set_top_n_symbols];
    fold bottom; fold bottom_differs;
    destruct bottom_differs; simpl; repeat split; reflexivity.
Qed.

(** C9. The first accepted event whose update reports a change publishes the
    top snapshot and then the bottom snapshot, whatever they hold (an empty
    side too), since the engine starts with no snapshot stored. *)
Theorem first_change_publishes_both_sides (contracts : list Stock)
  (bake_in bake_out n_top n_bottom : Z) (bypass : bool)
  (before : list RawTicker) (rt : RawTicker) :
  let fresh := __init__ contracts bake_in bake_out n_top n_bottom bypass in
  let self := fst (consume fresh before) in
  quiet fresh before = true ->
  reports_change self rt = true ->
  let self' := fst (_consume self rt) in
  let top :=
    get_top_n_tickers (rt_time rt) (rank_tickers self') (n_top_tickers self') in
  let bottom :=
    get_bottom_n_tickers (rt_time rt) (rank_tickers self')
      (n_bottom_tickers self') in
  published (snd (consume fresh before)) = []
  /\ published (snd (_consume self rt))
     = [Send TOP_HIGH_EVENT top; Send TOP_LOW_EVENT bottom]
  /\ top_n_symbols self' = Some top
  /\ bottom_n_symbols self' = Some bottom.
Proof.
  intros fresh self Hq Hc.
  destruct (quiet_keeps_none before fresh Hq) as (Ht & Hb & Hp);
    [reflexivity|reflexivity|].
  fold self in Ht, Hb.
  destruct (consume_step_accepted self rt Hc) as (t & Hg & _ & E).
  rewrite E. rewrite check_top_symbols_first by assumption.
  cbv zeta. simpl. repeat split; try reflexivity. exact Hp.
Qed.





End Publishing.

(** ** Ties *)

Section Ties.
Context {cal : Calendar} {gm : GapModel}.

(** Two tickers of one gap stand in a side of the ranking as they stand among
    the values of the dictionary. *)
Lemma side_keeps_order_of_ties (p : IntradayTicker -> bool)
  (values : list IntradayTicker) (n : Z) (ta tb : IntradayTicker) :
  precedes ta tb (slice_to (filter p (sort_by_gap values)) n) ->
  gap ta = gap tb ->
  precedes ta tb values.
Proof.
  intros H Hg.
  apply precedes_slice_to_inv, precedes_filter_inv in H.
  apply (precedes_filter (has_gap (gap ta))) in H.
  - rewrite sort_by_gap_stable in H. eapply precedes_filter_inv, H.
  - apply Z.eqb_refl.
  - unfold has_gap. rewrite Hg. apply Z.eqb_refl.
Qed.

(** C10. Whatever the messages consumed since the construction, two symbols
    of equal metric stand in either snapshot in the order in which the
    contract list has them; and the ranking is the one stable ascending
    arrangement of the tickers, so that the snapshots do not depend on how
    the stable sort goes about it. *)
Theorem ties_keep_contract_order (contracts : list Stock)
  (bake_in bake_out n_top n_bottom : Z) (bypass : bool)
  (msgs : list RawTicker) (time : UTCDateTime) (n : Z) :
  let self :=
    fst (consume (__init__ contracts bake_in bake_out n_top n_bottom bypass)
           msgs) in
  (forall snapshot a b,
     snapshot = get_top_n_tickers time (rank_tickers self) n
     \/ snapshot = get_bottom_n_tickers time (rank_tickers self) n ->
     precedes a b (tns_symbols snapshot) ->
     ts_gap a = ts_gap b ->
     precedes (ts_symbol a) (ts_symbol b) (map symbol contracts))
  /\ (forall ranking,
        StronglySorted gap_le ranking ->
        (forall g, filter (has_gap g) ranking
                   = filter (has_gap g) (PyDict.values (tickers self))) ->
        ranking = rank_tickers self).
Proof.
  intros self. split.
  - intros snapshot a b Hsnap Hab Hg.
    set (fresh := __init__ contracts bake_in bake_out n_top n_bottom bypass)
      in *.
    destruct (consume_keys msgs fresh) as [Hkeys Hkeyed].
    fold self in Hkeys, Hkeyed.
    assert (Hk : Forall key_is_symbol (tickers self)).
    { apply Hkeyed. apply init_tickers_keyed. constructor. }
    assert (Hside : exists p,
               tns_symbols snapshot
               = map TopSymbol_of_ticker
                   (slice_to (filter p (rank_tickers self)) n)).
    { destruct Hsnap as [-> | ->]; eexists; reflexivity. }
    destruct Hside as [p Hside]. rewrite Hside in Hab.
    apply precedes_map_inv in Hab. destruct Hab as (ta & tb & <- & <- & Hab).
    simpl in Hg. unfold rank_tickers in Hab.
    apply side_keeps_order_of_ties in Hab; [|exact Hg].
    apply (precedes_map (fun t => symbol (contract t))) in Hab.
    rewrite symbols_of_values in Hab by exact Hk.
    rewrite Hkeys in Hab. simpl in *.
    apply init_tickers_order in Hab. exact Hab.
  - intros ranking Hs Hf. unfold rank_tickers.
    apply sorted_stable_unique; [exact Hs|apply sort_by_gap_sorted|].
    intros g. rewrite sort_by_gap_stable. apply Hf.
Qed.

End Ties.

(** ** The offset seeker *)

(** The loop over the mapping raises as soon as it meets a partition without
    an offset, and returns when every partition has one. *)
Lemma seek_each_raises (mapping : list (TopicPartition * option OffsetAndTimestamp))
  (consumer : KafkaConsumer) (part : TopicPartition) :
  In (part, None) mapping ->
  exists consumer', seek_each consumer mapping = Raised TypeError consumer'.
Proof.
  revert consumer. induction mapping as [|[p [ts|]] rest IH];
    intros consumer Hin; simpl.
  - destruct Hin.
  - destruct Hin as [Hin|Hin]; [discriminate|]. apply IH, Hin.
  - eexists. reflexivity.
Qed.

Lemma seek_each_returns (mapping : list (TopicPartition * option OffsetAndTimestamp))
  (consumer : KafkaConsumer) :
  Forall (fun kv => snd kv <> None) mapping ->
  exists consumer', seek_each consumer mapping = Returned consumer'.
Proof.
  intros H. revert consumer.
  induction H as [|[p [ts|]] rest Hh _ IH]; intros consumer; simpl.
  - eexists. reflexivity.
  - apply IH.
  - exfalso. apply Hh. reflexivity.
Qed.

(** C8. With a subscribed partition that holds no record at or after the
    time (partition 1 here, which is empty), the call does not complete: it
    seeks partition 0 to its first record at or after the time (offset 1)
    and is then left by a [TypeError], raised on the [None] the lookup gives
    for partition 1; with every partition holding such a record it returns,
    each partition sought to that record. *)
Theorem set_offsets_by_time_raises_on_empty_partition :
  set_offsets_by_time 0 consumer_two_partitions (Some 1500000)
  = Raised TypeError (seek consumer_two_partitions (raw_part 0) 1)
  /\ first_at_or_after consumer_two_partitions (raw_part 1) 1500 = None
  /\ set_offsets_by_time 0 consumer_one_partition (Some 1500000)
     = Returned (seek consumer_one_partition (raw_part 0) 1).
Proof. split; [|split]; vm_compute; reflexivity. Qed.

(** * The theorems at work *)

Lemma consume_publishes_changed_sides_witness :
  @reports_change weekday_calendar deviation engine_after_A event_B3 = true
  /\ published (snd (step_ABC engine_after_A event_B3))
     = [Send TOP_HIGH_EVENT
          (mkTopNSymbols (friday_1500 + 1)
             [mkTopSymbol "B" 3; mkTopSymbol "A" 5])].
Proof.
  split; [reflexivity|].
  destruct (@consume_publishes_changed_sides weekday_calendar deviation
              engine_after_A event_B3 (@new_ticker deviation stock_B)
              eq_refl eq_refl) as [H _].
  unfold step_ABC. rewrite H. reflexivity.
Defined.

Lemma rejected_event_changes_nothing_witness :
  @asks_beyond_range weekday_range engine_windowed event_nan_saturday_2024
  = false
  /\ isnan (rt_last event_nan_saturday_2024) = true
  /\ exists warning,
       step_windowed engine_windowed event_nan_saturday_2024
       = Value (engine_windowed, [LogWarning warning])
       /\ published [LogWarning warning] = [].
Proof.
  split; [reflexivity|]. split; [reflexivity|].
  apply (@rejected_event_changes_nothing weekday_calendar weekday_range
           deviation engine_windowed event_nan_saturday_2024 eq_refl
           (or_introl eq_refl)).
Defined.

Lemma first_change_publishes_both_sides_witness :
  @quiet weekday_calendar deviation engine_ABC
    [event_nan_saturday; event_unknown] = true
  /\ published
       (snd (step_ABC
               (fst (run_ABC engine_ABC [event_nan_saturday; event_unknown]))
               event_A5))
     = [Send TOP_HIGH_EVENT (mkTopNSymbols friday_1500 [mkTopSymbol "A" 5]);
        Send TOP_LOW_EVENT (mkTopNSymbols friday_1500 [])].
Proof.
  split; [reflexivity|].
  destruct (@first_change_publishes_both_sides weekday_calendar deviation
              [stock_A; stock_B; stock_C] 0 0 2 2 true
              [event_nan_saturday; event_unknown] event_A5 eq_refl eq_refl)
    as (_ & H & _).
  unfold step_ABC, run_ABC, engine_ABC. rewrite H. reflexivity.
Defined.

Lemma ties_keep_contract_order_witness :
  tns_symbols
    (get_top_n_tickers 0
       (rank_tickers
          (fst (run_ABC (@__init__ deviation contracts_BA 0 0 4 4 true)
                  events_tie))) 4)
  = [mkTopSymbol "B" 5; mkTopSymbol "A" 5]
  /\ precedes "B" "A" (map symbol contracts_BA).
Proof.
  split; [reflexivity|].
  destruct (@ties_keep_contract_order weekday_calendar deviation contracts_BA
              0 0 4 4 true events_tie 0 4) as [H _].
  apply (H _ (mkTopSymbol "B" 5) (mkTopSymbol "A" 5) (or_introl eq_refl)).
  - apply precedes_here. left. reflexivity.
  - reflexivity.
Defined.

(** An event with a not-a-number price outside the window, on a date the
    calendar covers, is dropped by the window filter, where the stated order
    has the validity filter drop it. *)
Lemma nan_outside_window_is_dropped_by_the_window :
  @asks_beyond_range weekday_range engine_windowed event_nan_saturday_2024
  = false
  /\ step_windowed engine_windowed event_nan_saturday_2024
     = Value (engine_windowed,
              [LogWarning "ticker is outside update window: %s"])
  /\ @_consume_in_stated_order weekday_calendar deviation engine_windowed
       event_nan_saturday_2024
     = (engine_windowed, [LogWarning "ticker has nan last price: %s"]).
Proof. repeat split; reflexivity. Qed.

(** With the bypass off, an event on a date the calendar does not cover is
    not discarded: the calendar raises, be the price not a number or the
    symbol outside the universe. *)
Lemma rejected_events_beyond_calendar_range_raise :
  isnan (rt_last event_nan_saturday) = true
  /\ step_windowed engine_windowed event_nan_saturday = DateOutOfBounds
  /\ PyDict.get String.eqb (tickers engine_windowed) (rt_symbol event_unknown)
     = None
  /\ step_windowed engine_windowed event_unknown = DateOutOfBounds.
Proof. repeat split; reflexivity. Qed.


(** * Further properties of the engine *)

Section MoreDictFacts.
Context {V : Type}.
Implicit Types (d : list (string * V)) (k : string) (v : V).

Lemma In_keys_get d k :
  In k (PyDict.keys d) <-> exists v, PyDict.get String.eqb d k = Some v.
Proof.
  induction d as [|[k' v'] r IH]; simpl.
  - split; [tauto|]. intros [v H]. discriminate.
  - destruct (String.eqb_spec k' k).
    + split; [eauto|tauto].
    + rewrite IH. tauto.
Qed.

Lemma In_keys_set d k v s :
  In s (PyDict.keys (PyDict.set String.eqb d k v))
  <-> In s (PyDict.keys d) \/ s = k.
Proof.
  destruct (in_dec string_dec k (PyDict.keys d)) as [Hin|Hin].
  - rewrite keys_set_old by exact Hin. split; [tauto|].
    intros [H| ->]; assumption.
  - rewrite keys_set_new by exact Hin. rewrite in_app_iff. simpl.
    intuition congruence.
Qed.

Lemma NoDup_keys_set d k v :
  NoDup (PyDict.keys d) -> NoDup (PyDict.keys (PyDict.set String.eqb d k v)).
Proof.
  intros H.
  destruct (in_dec string_dec k (PyDict.keys d)) as [Hin|Hin].
  - rewrite keys_set_old by exact Hin. exact H.
  - rewrite keys_set_new by exact Hin.
    apply NoDup_app; [exact H|repeat constructor; simpl; tauto|].
    intros x Hx [<-|[]]. contradiction.
Qed.

Lemma get_set_other d k v k' :
  k' <> k ->
  PyDict.get String.eqb (PyDict.set String.eqb d k v) k'
  = PyDict.get String.eqb d k'.
Proof.
  intros Hne. induction d as [|[k0 v0] r IH]; simpl.
  - destruct (String.eqb_spec k k'); [congruence|reflexivity].
  - destruct (String.eqb_spec k0 k) as [->|Hk]; simpl.
    + destruct (String.eqb_spec k k'); [congruence|reflexivity].
    + rewrite IH. reflexivity.
Qed.

Lemma length_set_le d k v :
  (List.length (PyDict.set String.eqb d k v) <= S (List.length d))%nat.
Proof.
  induction d as [|[k0 v0] r IH]; simpl; [lia|].
  destruct (String.eqb k0 k); simpl; lia.
Qed.

End MoreDictFacts.

Section Universe.
Context {cal : Calendar} {gm : GapModel}.

Lemma init_tickers_keys (contracts : list Stock)
  (d : list (string * IntradayTicker)) (s : string) :
  In s
    (PyDict.keys
       (fold_left
          (fun d c => PyDict.set String.eqb d (symbol c) (new_ticker c))
          contracts d))
  <-> In s (PyDict.keys d) \/ In s (map symbol contracts).
Proof.
  revert d. induction contracts as [|c cs IH]; intros d; simpl.
  - tauto.
  - rewrite IH, In_keys_set. intuition congruence.
Qed.

Lemma init_tickers_NoDup (contracts : list Stock)
  (d : list (string * IntradayTicker)) :
  NoDup (PyDict.keys d) ->
  NoDup
    (PyDict.keys
       (fold_left
          (fun d c => PyDict.set String.eqb d (symbol c) (new_ticker c))
          contracts d)).
Proof.
  revert d. induction contracts as [|c cs IH]; intros d H; simpl;
    [exact H|].
  apply IH, NoDup_keys_set, H.
Qed.

Lemma init_tickers_length (contracts : list Stock)
  (d : list (string * IntradayTicker)) :
  (List.length
     (fold_left
        (fun d c => PyDict.set String.eqb d (symbol c) (new_ticker c))
        contracts d)
   <= List.length d + List.length contracts)%nat.
Proof.
  revert d. induction contracts as [|c cs IH]; intros d; simpl; [lia|].
  specialize (IH (PyDict.set String.eqb d (symbol c) (new_ticker c))).
  pose proof (length_set_le d (symbol c) (new_ticker c)). lia.
Qed.

(** X1. The universe is fixed at construction: whatever messages were
    consumed since, the engine holds a ticker for a symbol exactly when the
    symbol is that of one of the contracts it was built from. *)
Theorem universe_is_the_contract_list (contracts : list Stock)
  (bake_in bake_out n_top n_bottom : Z) (bypass : bool)
  (msgs : list RawTicker) (s : string) :
  let self :=
    fst (consume (__init__ contracts bake_in bake_out n_top n_bottom bypass)
           msgs) in
  (exists t, PyDict.get String.eqb (tickers self) s = Some t)
  <-> In s (map symbol contracts).
Proof.
  intros self. rewrite <- In_keys_get. unfold self.
  rewrite (proj1 (consume_keys msgs _)). simpl.
  rewrite init_tickers_keys. simpl. tauto.
Qed.

(** X2. The dictionary holds one ticker a symbol, also when the contract list
    repeats a symbol: at any time its keys are without repetition, each
    ticker sits under the symbol of its own contract, and there are no more
    tickers than contracts. *)
Theorem one_ticker_per_symbol (contracts : list Stock)
  (bake_in bake_out n_top n_bottom : Z) (bypass : bool)
  (msgs : list RawTicker) :
  let self :=
    fst (consume (__init__ contracts bake_in bake_out n_top n_bottom bypass)
           msgs) in
  NoDup (PyDict.keys (tickers self))
  /\ Forall key_is_symbol (tickers self)
  /\ (List.length (tickers self) <= List.length contracts)%nat.
Proof.
  intros self.
  destruct (consume_keys msgs
              (__init__ contracts bake_in bake_out n_top n_bottom bypass))
    as [Hkeys Hkeyed].
  fold self in Hkeys, Hkeyed. split; [|split].
  - rewrite Hkeys. simpl. apply init_tickers_NoDup. constructor.
  - apply Hkeyed. simpl. apply init_tickers_keyed. constructor.
  - assert (Hlen : List.length (tickers self)
                   = List.length (PyDict.keys (tickers self)))
      by (unfold PyDict.keys; rewrite length_map; reflexivity).
    rewrite Hlen, Hkeys. unfold PyDict.keys. rewrite length_map. simpl.
    apply (init_tickers_length contracts []).
Qed.

(** The configuration survives a message. *)
Lemma consume_step_config (self : RealTimeTrading) (rt : RawTicker) :
  let self' := fst (_consume self rt) in
  bake_in_minutes self' = bake_in_minutes self
  /\ bake_out_minutes self' = bake_out_minutes self
  /\ n_top_tickers self' = n_top_tickers self
  /\ n_bottom_tickers self' = n_bottom_tickers self
  /\ _bypass_update_window self' = _bypass_update_window self.
Proof.
  unfold _consume.
  destruct (negb _ && negb _); [simpl; tauto|].
  destruct (isnan _); [simpl; tauto|].
  destruct (PyDict.get _ _ _) as [t|]; [|simpl; tauto].
  destruct (update t rt) as [updated t']. destruct updated.
  - destruct (check_top_symbols_frame
                (set_tickers self
                   (PyDict.set String.eqb (tickers self) (rt_symbol rt) t'))
                (rt_time rt)) as (_ & H1 & H2 & H3 & H4 & H5).
    cbv zeta. rewrite H1, H2, H3, H4, H5. simpl. tauto.
  - simpl. tauto.
Qed.

(** X3. Nothing the engine consumes changes its configuration: the bake-in
    and bake-out minutes, the two sizes and the bypass flag are after any
    messages what they were before. *)
Theorem configuration_is_immutable (self : RealTimeTrading)
  (msgs : list RawTicker) :
  let self' := fst (consume self msgs) in
  bake_in_minutes self' = bake_in_minutes self
  /\ bake_out_minutes self' = bake_out_minutes self
  /\ n_top_tickers self' = n_top_tickers self
  /\ n_bottom_tickers self' = n_bottom_tickers self
  /\ _bypass_update_window self' = _bypass_update_window self.
Proof.
  revert self. induction msgs as [|m rest IH]; intros self; simpl.
  - tauto.
  - pose proof (consume_step_config self m) as Hm.
    destruct (_consume self m) as [self1 tr1]. simpl in Hm.
    specialize (IH self1).
    destruct (consume self1 rest) as [self2 tr2]. simpl in *.
    destruct Hm as (H1 & H2 & H3 & H4 & H5).
    destruct IH as (I1 & I2 & I3 & I4 & I5).
    repeat split; congruence.
Qed.

(** X4. Consuming two batches one after the other is consuming them as one:
    the second batch starts from the engine the first leaves, and the trace
    is the first trace followed by the second. *)
Theorem consume_app (self : RealTimeTrading) (first second : list RawTicker) :
  consume self (first ++ second)
  = (fst (consume (fst (consume self first)) second),
     snd (consume self first)
     ++ snd (consume (fst (consume self first)) second)).
Proof.
  revert self. induction first as [|m rest IH]; intros self; simpl.
  - destruct (consume self second); reflexivity.
  - destruct (_consume self m) as [self1 tr1]. rewrite IH.
    destruct (consume self1 rest) as [self2 tr2]. simpl.
    rewrite app_assoc. reflexivity.
Qed.

Lemma consume_step_other_ticker (self : RealTimeTrading) (rt : RawTicker)
  (k : string) :
  k <> rt_symbol rt ->
  PyDict.get String.eqb (tickers (fst (_consume self rt))) k
  = PyDict.get String.eqb (tickers self) k.
Proof.
  intros Hne. unfold _consume.
  destruct (negb _ && negb _); [reflexivity|].
  destruct (isnan _); [reflexivity|].
  destruct (PyDict.get String.eqb (tickers self) (rt_symbol rt)) as [t|];
    [|reflexivity].
  destruct (update t rt) as [updated t']. destruct updated.
  - rewrite (proj1 (check_top_symbols_frame _ _)). simpl.
    apply get_set_other, Hne.
  - simpl. apply get_set_other, Hne.
Qed.

(** X5. A message touches no ticker but that of its own symbol: the ticker of
    a symbol is, after any messages for other symbols, the ticker it was. *)
Theorem other_tickers_untouched (self : RealTimeTrading)
  (msgs : list RawTicker) (k : string) :
  Forall (fun m => rt_symbol m <> k) msgs ->
  PyDict.get String.eqb (tickers (fst (consume self msgs))) k
  = PyDict.get String.eqb (tickers self) k.
Proof.
  intros H. revert self. induction H as [|m rest Hm _ IH]; intros self; simpl.
  - reflexivity.
  - pose proof (consume_step_other_ticker self m k) as Hk.
    destruct (_consume self m) as [self1 tr1]. simpl in Hk.
    specialize (IH self1).
    destruct (consume self1 rest) as [self2 tr2]. simpl in *.
    rewrite IH. apply Hk. congruence.
Qed.

End Universe.

(** X6. With the bypass flag set the calendar plays no part: the engine
    consumes any messages the same way under any two calendars. *)
Theorem bypass_ignores_the_calendar (cal1 cal2 : Calendar) (gm : GapModel)
  (self : RealTimeTrading) (msgs : list RawTicker) :
  _bypass_update_window self = true ->
  @consume cal1 gm self msgs = @consume cal2 gm self msgs.
Proof.
  revert self. induction msgs as [|m rest IH]; intros self Hb; simpl.
  - reflexivity.
  - assert (E : @_consume cal1 gm self m = @_consume cal2 gm self m).
    { unfold _consume. rewrite Hb. reflexivity. }
    rewrite E.
    pose proof (@consume_step_config cal2 gm self m) as Hc.
    destruct (@_consume cal2 gm self m) as [self1 tr1]. simpl in Hc.
    rewrite (IH self1); [reflexivity|].
    destruct Hc as (_ & _ & _ & _ & ->). exact Hb.
Qed.

(** ** What is stored and what was sent *)

Lemma sent_on_app (t : topic) (tr1 tr2 : list effect) :
  sent_on t (tr1 ++ tr2) = sent_on t tr1 ++ sent_on t tr2.
Proof. unfold sent_on. apply flat_map_app. Qed.

Lemma last_or_app {A : Type} (default : option A) (l1 l2 : list A) :
  last_or default (l1 ++ l2) = last_or (last_or default l1) l2.
Proof. unfold last_or. apply fold_left_app. Qed.

Lemma differs_in_turn_app (prev : option TopNSymbols)
  (l1 l2 : list TopNSymbols) :
  differs_in_turn prev l1 -> differs_in_turn (last_or prev l1) l2 ->
  differs_in_turn prev (l1 ++ l2).
Proof.
  revert prev. induction l1 as [|s r IH]; intros prev H1 H2; simpl in *.
  - exact H2.
  - destruct H1 as [Hs Hr]. split; [exact Hs|]. apply IH; assumption.
Qed.

Lemma differs_in_turn_adjacent (prev : option TopNSymbols)
  (before after : list TopNSymbols) (s1 s2 : TopNSymbols) :
  differs_in_turn prev (before ++ s1 :: s2 :: after) ->
  TopNSymbols_eqb s2 s1 = false.
Proof.
  revert prev. induction before as [|s r IH]; intros prev H; simpl in H.
  - destruct H as (_ & H & _). simpl in H. apply negb_true_iff, H.
  - destruct H as [_ H]. eapply IH, H.
Qed.

(** On either side [_check_top_symbols] sends nothing and keeps what is
    stored, or sends one snapshot that differs from what was stored and
    stores it. *)
Lemma check_top_symbols_sends (t : topic) (self : RealTimeTrading)
  (time : UTCDateTime) :
  let r := _check_top_symbols self time in
  (sent_on t (snd r) = [] /\ stored t (fst r) = stored t self)
  \/ (exists s, sent_on t (snd r) = [s]
                /\ is_none_or_differs (stored t self) s = true
                /\ stored t (fst r) = Some s).
Proof.
  unfold _check_top_symbols.
  destruct (is_none_or_differs (top_n_symbols self) _) eqn:Et;
    cbn [n_bottom_tickers bottom_n_symbols set_top_n_symbols];
    destruct (is_none_or_differs (bottom_n_symbols self) _) eqn:Eb;
    destruct t; simpl; eauto.
Qed.

Section Sends.
Context {cal : Calendar} {gm : GapModel}.

Lemma consume_step_sends (t : topic) (self : RealTimeTrading)
  (rt : RawTicker) :
  let r := _consume self rt in
  (sent_on t (snd r) = [] /\ stored t (fst r) = stored t self)
  \/ (exists s, sent_on t (snd r) = [s]
                /\ is_none_or_differs (stored t self) s = true
                /\ stored t (fst r) = Some s).
Proof.
  unfold _consume.
  destruct (negb _ && negb _); [left; split; reflexivity|].
  destruct (isnan _); [left; split; reflexivity|].
  destruct (PyDict.get _ _ _) as [tk|]; [|left; split; reflexivity].
  destruct (update tk rt) as [updated tk']. destruct updated.
  - pose proof (check_top_symbols_sends t
                  (set_tickers self
                     (PyDict.set String.eqb (tickers self) (rt_symbol rt) tk'))
                  (rt_time rt)) as H.
    cbv zeta in *.
    replace (stored t
               (set_tickers self
                  (PyDict.set String.eqb (tickers self) (rt_symbol rt) tk')))
      with (stored t self) in H by (destruct t; reflexivity).
    exact H.
  - left. split; [reflexivity|]. destruct t; reflexivity.
Qed.

Lemma consume_sends (t : topic) (msgs : list RawTicker)
  (self : RealTimeTrading) :
  differs_in_turn (stored t self) (sent_on t (snd (consume self msgs)))
  /\ stored t (fst (consume self msgs))
     = last_or (stored t self) (sent_on t (snd (consume self msgs))).
Proof.
  revert self. induction msgs as [|m rest IH]; intros self; simpl.
  - split; [exact I|reflexivity].
  - pose proof (consume_step_sends t self m) as Hm.
    destruct (_consume self m) as [self1 tr1]. cbv zeta in Hm. simpl in Hm.
    specialize (IH self1).
    destruct (consume self1 rest) as [self2 tr2]. simpl in *.
    rewrite sent_on_app, last_or_app.
    destruct IH as [IH1 IH2].
    destruct Hm as [[Hs Hst]|(s & Hs & Hd & Hst)]; rewrite Hs; simpl.
    + rewrite <- Hst. split; assumption.
    + rewrite Hst in IH1, IH2. split; [split|]; assumption.
Qed.

(** X7. On each side the engine stores the snapshot it sent last: after any
    messages the stored snapshot of a side is the last one sent on its topic
    in the meantime, and is what it was when none was sent. *)
Theorem stored_snapshot_is_the_last_sent (t : topic) (self : RealTimeTrading)
  (msgs : list RawTicker) :
  stored t (fst (consume self msgs))
  = last_or (stored t self) (sent_on t (snd (consume self msgs))).
Proof. apply consume_sends. Qed.

(** X8. No side is sent twice in a row with the same content: of two
    snapshots sent one after the other on a topic, the second differs from
    the first under the snapshots' comparison. *)
Theorem successive_sends_differ (t : topic) (self : RealTimeTrading)
  (msgs : list RawTicker) (before after : list TopNSymbols)
  (s1 s2 : TopNSymbols) :
  sent_on t (snd (consume self msgs)) = before ++ s1 :: s2 :: after ->
  TopNSymbols_eqb s2 s1 = false.
Proof.
  intros H. destruct (consume_sends t msgs self) as [Hd _].
  rewrite H in Hd. eapply differs_in_turn_adjacent, Hd.
Qed.

End Sends.

(** ** The shape of a snapshot *)

Lemma In_slice_to {A : Type} (l : list A) (n : Z) (x : A) :
  In x (slice_to l n) -> In x l.
Proof. unfold slice_to. destruct (0 <=? n); apply In_firstn_In. Qed.

Lemma In_side (p : IntradayTicker -> bool) (time : UTCDateTime)
  (tickers : list IntradayTicker) (n : Z) (e : TopSymbol) :
  In e (tns_symbols (from_tickers time (slice_to (filter p tickers) n))) ->
  exists t, In t tickers /\ p t = true /\ e = TopSymbol_of_ticker t.
Proof.
  simpl. rewrite in_map_iff. intros (t & <- & Hin).
  apply In_slice_to, filter_In in Hin. exists t. tauto.
Qed.

(** X9. A snapshot holds only tickers of its sign: every entry of the top
    snapshot has a gap above 0 and every entry of the bottom snapshot a gap
    below 0, so that a ticker whose gap is 0 is on neither side. *)
Theorem snapshot_sides_by_sign (time : UTCDateTime)
  (tickers : list IntradayTicker) (n : Z) :
  Forall (fun e => ts_gap e > 0)
    (tns_symbols (get_top_n_tickers time tickers n))
  /\ Forall (fun e => ts_gap e < 0)
       (tns_symbols (get_bottom_n_tickers time tickers n)).
Proof.
  split; apply Forall_forall; intros e He; apply In_side in He;
    destruct He as (t & _ & Hp & ->); simpl.
  - apply Z.gtb_lt in Hp. lia.
  - apply Z.ltb_lt in Hp. exact Hp.
Qed.

(** X10. The size of a snapshot, for any integer [n]: with [n] at least 0 it
    is [n] or the number of tickers of the side's sign, whichever is less
    (none with [n = 0]); with a negative [n] the slice drops the last [-n]
    of them. *)
Theorem snapshot_size (time : UTCDateTime) (tickers : list IntradayTicker)
  (n : Z) :
  let positives := List.length (filter (fun t => gap t >? 0) tickers) in
  let negatives := List.length (filter (fun t => gap t <? 0) tickers) in
  List.length (tns_symbols (get_top_n_tickers time tickers n))
  = (if 0 <=? n then Nat.min (Z.to_nat n) positives
     else (positives - Z.to_nat (- n))%nat)
  /\ List.length (tns_symbols (get_bottom_n_tickers time tickers n))
     = (if 0 <=? n then Nat.min (Z.to_nat n) negatives
        else (negatives - Z.to_nat (- n))%nat).
Proof.
  unfold get_top_n_tickers, get_bottom_n_tickers, from_tickers, slice_to.
  simpl. rewrite !length_map.
  destruct (0 <=? n); rewrite !length_firstn; split; lia.
Qed.

Section Sides.
Context {cal : Calendar} {gm : GapModel}.

Lemma values_same_symbol (d : list (string * IntradayTicker))
  (ta tb : IntradayTicker) :
  NoDup (PyDict.keys d) -> Forall key_is_symbol d ->
  In ta (PyDict.values d) -> In tb (PyDict.values d) ->
  symbol (contract ta) = symbol (contract tb) -> ta = tb.
Proof.
  intros Hnd Hk. induction Hk as [|[k t] r Hh Hr IH]; simpl; [tauto|].
  inversion Hnd as [|k0 r0 Hnotin Hnd']; subst.
  unfold key_is_symbol in Hh. simpl in Hh.
  assert (Hkey : forall x, In x (PyDict.values r) ->
                           In (symbol (contract x)) (PyDict.keys r)).
  { intros x Hx. rewrite <- (symbols_of_values r Hr).
    apply (in_map (fun t => symbol (contract t))), Hx. }
  intros [<-|Ha] [<-|Hb] Hs.
  - reflexivity.
  - exfalso. apply Hnotin. rewrite <- Hh, Hs. apply Hkey, Hb.
  - exfalso. apply Hnotin. rewrite <- Hh, <- Hs. apply Hkey, Ha.
  - apply IH; assumption.
Qed.

Lemma reachable_tickers_keyed (contracts : list Stock)
  (bake_in bake_out n_top n_bottom : Z) (bypass : bool)
  (msgs : list RawTicker) :
  let self :=
    fst (consume (__init__ contracts bake_in bake_out n_top n_bottom bypass)
           msgs) in
  NoDup (PyDict.keys (tickers self)) /\ Forall key_is_symbol (tickers self).
Proof.
  intros self.
  destruct (consume_keys msgs
              (__init__ contracts bake_in bake_out n_top n_bottom bypass))
    as [Hkeys Hkeyed].
  fold self in Hkeys, Hkeyed. split.
  - rewrite Hkeys. simpl. apply init_tickers_NoDup. constructor.
  - apply Hkeyed. simpl. apply init_tickers_keyed. constructor.
Qed.

(** X11. No symbol is on both sides at once: an entry of the top snapshot and
    an entry of the bottom snapshot computed from the same engine never
    carry the same symbol, whatever the two sizes. *)
Theorem no_symbol_on_both_sides (contracts : list Stock)
  (bake_in bake_out n_top n_bottom : Z) (bypass : bool)
  (msgs : list RawTicker) (time : UTCDateTime) (n m : Z) (a b : TopSymbol) :
  let self :=
    fst (consume (__init__ contracts bake_in bake_out n_top n_bottom bypass)
           msgs) in
  In a (tns_symbols (get_top_n_tickers time (rank_tickers self) n)) ->
  In b (tns_symbols (get_bottom_n_tickers time (rank_tickers self) m)) ->
  ts_symbol a <> ts_symbol b.
Proof.
  intros self Ha Hb Hs.
  destruct (reachable_tickers_keyed contracts bake_in bake_out n_top n_bottom
              bypass msgs) as [Hnd Hk].
  fold self in Hnd, Hk.
  apply In_side in Ha. destruct Ha as (ta & Hina & Hpa & ->).
  apply In_side in Hb. destruct Hb as (tb & Hinb & Hpb & ->).
  simpl in Hs. unfold rank_tickers in Hina, Hinb.
  apply (Permutation_in _ (sort_by_gap_perm _)) in Hina, Hinb.
  assert (ta = tb) as -> by (eapply values_same_symbol; eassumption).
  apply Z.gtb_lt in Hpa. apply Z.ltb_lt in Hpb. lia.
Qed.

End Sides.

(** ** The update window and the core market minutes *)

Section CoreMinutes.
Context {cal : Calendar} {gm : GapModel}.

(** X12. With no minutes baked in or out the update window is the core
    market minutes of [utils.is_core_market_minutes]; and with bake-in and
    bake-out minutes that are not negative it lies within them, so that no
    event outside the session is ever inside the window. *)
Theorem update_window_within_core_minutes (self : RealTimeTrading)
  (dt : UTCDateTime) :
  0 <= bake_in_minutes self -> 0 <= bake_out_minutes self ->
  (inside_update_window self dt = true -> is_core_market_minutes dt = true)
  /\ (bake_in_minutes self = 0 -> bake_out_minutes self = 0 ->
      inside_update_window self dt = is_core_market_minutes dt).
Proof.
  intros Hi Ho. unfold inside_update_window, is_core_market_minutes.
  destruct (get_market_open_close dt) as [[open_|] [close|]];
    try (split; [discriminate|reflexivity]).
  unfold timedelta_minutes. split.
  - rewrite !andb_true_iff, !Z.geb_le, !Z.ltb_lt. lia.
  - intros -> ->. rewrite Z.add_0_r, Z.sub_0_r. reflexivity.
Qed.

(** X13. When the minutes baked in and out together cover the session, the
    window is empty: no instant of that date is inside it. *)
Theorem update_window_empty_when_bakes_cover_session (self : RealTimeTrading)
  (dt open_ close : UTCDateTime) :
  get_market_open_close dt = (Some open_, Some close) ->
  close - open_
  <= timedelta_minutes (bake_in_minutes self + bake_out_minutes self) ->
  inside_update_window self dt = false.
Proof.
  intros Hb Hc. unfold inside_update_window. rewrite Hb.
  unfold timedelta_minutes in *.
  apply andb_false_iff.
  destruct (Z.lt_ge_cases dt (open_ + bake_in_minutes self * 60000000))
    as [Hlt|Hge].
  - left. rewrite Z.geb_leb. apply Z.leb_gt. exact Hlt.
  - right. apply Z.ltb_ge. lia.
Qed.

End CoreMinutes.

(** ** The calendar's range *)

Section Range.
Context {cal : Calendar} {range : CalendarRange} {gm : GapModel}.

(** X29. [consume] is left by the calendar's exception exactly when the
    bypass is off and some message carries a date the calendar does not
    cover; in every other case, so always with the bypass set, it consumes
    all the messages and is the [consume] without the exception. *)
Theorem consume_raises_beyond_range (self : RealTimeTrading)
  (msgs : list RawTicker) :
  consume_raising self msgs
  = if negb (_bypass_update_window self)
       && existsb (fun m => negb (covers (datetime2datestr (rt_time m)))) msgs
    then DateOutOfBounds
    else Value (consume self msgs).
Proof.
  revert self. induction msgs as [|m rest IH]; intros self.
  - simpl. rewrite andb_false_r. reflexivity.
  - cbn [consume_raising existsb consume].
    rewrite consume_raising_step. unfold asks_beyond_range.
    destruct (consume_step_config self m) as (_ & _ & _ & _ & Hb).
    cbv zeta in Hb.
    destruct (_consume self m) as [self1 tr1]. cbn [fst] in Hb.
    destruct (_bypass_update_window self) eqn:B; cbn [negb andb].
    + rewrite IH, Hb. cbn [negb andb].
      destruct (consume self1 rest). reflexivity.
    + destruct (covers (datetime2datestr (rt_time m)));
        cbn [negb orb]; [|reflexivity].
      rewrite IH, Hb. cbn [negb andb].
      destruct (existsb _ rest); [reflexivity|].
      destruct (consume self1 rest). reflexivity.
Qed.

End Range.

(** * Further properties of the offset seeker *)

Lemma TopicPartition_eqb_spec (a b : TopicPartition) :
  reflect (a = b) (TopicPartition_eqb a b).
Proof.
  unfold TopicPartition_eqb. destruct a as [ta pa], b as [tb pb]. simpl.
  destruct (String.eqb_spec ta tb) as [->|Ht]; simpl.
  - destruct (Z.eqb_spec pa pb) as [->|Hp]; constructor; congruence.
  - constructor. congruence.
Qed.

Section KeyedDict.
Context {K V : Type}.
Variable eqb : K -> K -> bool.
Hypothesis eqb_spec : forall a b, reflect (a = b) (eqb a b).
Implicit Types (d : list (K * V)) (k : K) (v : V).

Lemma kd_get_set_same d k v :
  PyDict.get eqb (PyDict.set eqb d k v) k = Some v.
Proof.
  induction d as [|[k' v'] r IH]; simpl.
  - destruct (eqb_spec k k); [reflexivity|congruence].
  - destruct (eqb_spec k' k) as [->|Hk]; simpl.
    + destruct (eqb_spec k k); [reflexivity|congruence].
    + destruct (eqb_spec k' k); [congruence|exact IH].
Qed.

Lemma kd_get_set_other d k v k' :
  k' <> k -> PyDict.get eqb (PyDict.set eqb d k v) k' = PyDict.get eqb d k'.
Proof.
  intros Hne. induction d as [|[k0 v0] r IH]; simpl.
  - destruct (eqb_spec k k'); [congruence|reflexivity].
  - destruct (eqb_spec k0 k) as [->|Hk]; simpl.
    + destruct (eqb_spec k k'); [congruence|reflexivity].
    + rewrite IH. reflexivity.
Qed.

Lemma kd_In_keys_set d k v x :
  In x (PyDict.keys (PyDict.set eqb d k v)) <-> In x (PyDict.keys d) \/ x = k.
Proof.
  induction d as [|[k0 v0] r IH]; simpl.
  - intuition congruence.
  - destruct (eqb_spec k0 k) as [->|Hk]; simpl.
    + intuition congruence.
    + rewrite IH. tauto.
Qed.

Lemma kd_values_set (P : V -> Prop) d k v :
  Forall (fun kv => P (snd kv)) d -> P v ->
  Forall (fun kv => P (snd kv)) (PyDict.set eqb d k v).
Proof.
  intros Hd Hv. induction Hd as [|[k0 v0] r Hh Hr IH]; simpl.
  - repeat constructor. exact Hv.
  - destruct (eqb k0 k); constructor; assumption.
Qed.

End KeyedDict.

Section Seeker.
Variable consumer : KafkaConsumer.
Variable ts : Z.

(** The dictionary from partition to timestamp holds the partitions asked
    for, each with the one timestamp. *)
Lemma partition_to_timestamp_keys (partitions : list TopicPartition)
  (d : list (TopicPartition * Z)) (p : TopicPartition) :
  In p
    (PyDict.keys
       (fold_left (fun d part => PyDict.set TopicPartition_eqb d part ts)
          partitions d))
  <-> In p (PyDict.keys d) \/ In p partitions.
Proof.
  revert d. induction partitions as [|q qs IH]; intros d; simpl.
  - tauto.
  - rewrite IH, (kd_In_keys_set _ TopicPartition_eqb_spec).
    intuition congruence.
Qed.

Lemma partition_to_timestamp_values (partitions : list TopicPartition)
  (d : list (TopicPartition * Z)) :
  Forall (fun kv => snd kv = ts) d ->
  Forall (fun kv => snd kv = ts)
    (fold_left (fun d part => PyDict.set TopicPartition_eqb d part ts)
       partitions d).
Proof.
  revert d. induction partitions as [|q qs IH]; intros d H; simpl;
    [exact H|].
  apply IH. apply (kd_values_set _ (fun v => v = ts)); [exact H|reflexivity].
Qed.

Lemma offsets_for_times_by_key (d : list (TopicPartition * Z)) :
  Forall (fun kv => snd kv = ts) d ->
  offsets_for_times consumer d
  = map (fun p => (p, first_at_or_after consumer p ts)) (PyDict.keys d).
Proof.
  unfold offsets_for_times, PyDict.keys.
  induction 1 as [|[p t] r Hh _ IH]; simpl; [reflexivity|].
  simpl in Hh. subst t. rewrite IH. reflexivity.
Qed.

(** The loop keeps everything of the consumer but the cursors. *)
Lemma seek_each_frame (mapping : list (TopicPartition * option OffsetAndTimestamp))
  (c : KafkaConsumer) :
  let c' := consumer_of (seek_each c mapping) in
  kc_subscription c' = kc_subscription c
  /\ kc_partitions c' = kc_partitions c
  /\ kc_records c' = kc_records c.
Proof.
  revert c. induction mapping as [|[p [o|]] rest IH]; intros c; simpl.
  - tauto.
  - destruct (IH (seek c p (oat_offset o))) as (H1 & H2 & H3).
    simpl in *. tauto.
  - tauto.
Qed.

(** The loop over the lookups of [keys], from any consumer: it returns when
    every key has a record, and then each key's cursor is at its record and
    the other cursors are where they were; it raises otherwise, and then
    each cursor is where it was or at its partition's record. *)
Lemma seek_each_by_key (keys : list TopicPartition) (c : KafkaConsumer) :
  let mapping := map (fun p => (p, first_at_or_after consumer p ts)) keys in
  (Forall (fun p => first_at_or_after consumer p ts <> None) keys ->
   exists c', seek_each c mapping = Returned c'
     /\ forall p,
          (In p keys ->
           position c' p
           = option_map oat_offset (first_at_or_after consumer p ts))
          /\ (~ In p keys -> position c' p = position c p))
  /\ (~ Forall (fun p => first_at_or_after consumer p ts <> None) keys ->
      exists c', seek_each c mapping = Raised TypeError c'
        /\ forall p,
             position c' p = position c p
             \/ (In p keys
                 /\ first_at_or_after consumer p ts <> None
                 /\ position c' p
                    = option_map oat_offset
                        (first_at_or_after consumer p ts))).
Proof.
  revert c. induction keys as [|k ks IH]; intros c; simpl.
  - split.
    + intros _. exists c. split; [reflexivity|]. intros p. tauto.
    + intros H. exfalso. apply H. constructor.
  - destruct (first_at_or_after consumer k ts) as [o|] eqn:Ek.
    + destruct (IH (seek c k (oat_offset o))) as [IHr IHf]. split.
      * intros Hall. inversion Hall as [|? ? _ Hks]; subst.
        destruct (IHr Hks) as (c' & E & Hp). exists c'.
        split; [exact E|]. intros p. destruct (Hp p) as [Hin Hout].
        split.
        -- intros [<-|Hp']; [|apply Hin, Hp'].
           destruct (in_dec
                       (fun a b => reflect_dec _ _ (TopicPartition_eqb_spec a b))
                       k ks) as [Hk|Hk].
           ++ rewrite Hin by exact Hk. rewrite Ek. reflexivity.
           ++ rewrite Hout by exact Hk. unfold position, seek. simpl.
              rewrite (kd_get_set_same _ TopicPartition_eqb_spec), Ek.
              reflexivity.
        -- intros Hn. rewrite Hout by tauto. unfold position, seek. simpl.
           apply (kd_get_set_other _ TopicPartition_eqb_spec).
           intros ->. tauto.
      * intros Hn.
        assert (Hks : ~ Forall
                        (fun p => first_at_or_after consumer p ts <> None)
                        ks).
        { intros Hks. apply Hn. constructor; [congruence|exact Hks]. }
        destruct (IHf Hks) as (c' & E & Hp). exists c'.
        split; [exact E|]. intros p.
        destruct (Hp p) as [Hsame|(Hin & Hsome & Hpos)].
        -- destruct (TopicPartition_eqb_spec p k) as [->|Hpk].
           ++ right. split; [left; reflexivity|]. split; [congruence|].
              rewrite Hsame. unfold position, seek. simpl.
              rewrite (kd_get_set_same _ TopicPartition_eqb_spec), Ek.
              reflexivity.
           ++ left. rewrite Hsame. unfold position, seek. simpl.
              apply (kd_get_set_other _ TopicPartition_eqb_spec), Hpk.
        -- right. tauto.
    + split.
      * intros Hall. inversion Hall as [|? ? Hk _]; subst. congruence.
      * intros _. exists c. split; [reflexivity|]. intros p. left.
        reflexivity.
Qed.

End Seeker.

Lemma has_record_dec (consumer : KafkaConsumer) (ts : Z)
  (partitions : list TopicPartition) :
  {Forall (fun p => first_at_or_after consumer p ts <> None) partitions}
  + {~ Forall (fun p => first_at_or_after consumer p ts <> None) partitions}.
Proof.
  apply Forall_dec. intros p.
  destruct (first_at_or_after consumer p ts); [left; discriminate|right].
  intros H. apply H. reflexivity.
Qed.

(** Both seekers are the loop over the lookups of the partitions they
    collect, without repetition. *)
Lemma set_offsets_by_time_aiokafka_unfold (local_midnight : UTCDateTime)
  (consumer : KafkaConsumer) (assignment : list TopicPartition)
  (start_time : option UTCDateTime) :
  let ts := start_timestamp_ms local_midnight start_time in
  set_offsets_by_time_aiokafka local_midnight consumer assignment start_time
  = seek_each consumer
      (map (fun p => (p, first_at_or_after consumer p ts))
         (PyDict.keys
            (fold_left
               (fun d part => PyDict.set TopicPartition_eqb d part ts)
               assignment []))).
Proof.
  unfold set_offsets_by_time_aiokafka, start_timestamp_ms. cbv zeta.
  set (ts := timestamp_ms
               match start_time with
               | Some t => t
               | None => local_midnight
               end).
  rewrite (offsets_for_times_by_key consumer ts); [reflexivity|].
  apply partition_to_timestamp_values. constructor.
Qed.

Lemma set_offsets_by_time_unfold (local_midnight : UTCDateTime)
  (consumer : KafkaConsumer) (start_time : option UTCDateTime) :
  set_offsets_by_time local_midnight consumer start_time
  = set_offsets_by_time_aiokafka local_midnight consumer
      (subscribed_partitions consumer) start_time.
Proof.
  unfold set_offsets_by_time, set_offsets_by_time_aiokafka,
    subscribed_partitions.
  destruct (kc_subscription consumer); reflexivity.
Qed.

Lemma seek_by_time_outcome (local_midnight : UTCDateTime)
  (consumer : KafkaConsumer) (assignment : list TopicPartition)
  (start_time : option UTCDateTime) :
  let ts := start_timestamp_ms local_midnight start_time in
  let result :=
    set_offsets_by_time_aiokafka local_midnight consumer assignment
      start_time in
  (Forall (fun p => first_at_or_after consumer p ts <> None) assignment ->
   exists c', result = Returned c'
     /\ forall p,
          (In p assignment ->
           position c' p
           = option_map oat_offset (first_at_or_after consumer p ts))
          /\ (~ In p assignment -> position c' p = position consumer p))
  /\ (~ Forall (fun p => first_at_or_after consumer p ts <> None) assignment ->
      exists c', result = Raised TypeError c'
        /\ forall p,
             position c' p = position consumer p
             \/ (In p assignment
                 /\ first_at_or_after consumer p ts <> None
                 /\ position c' p
                    = option_map oat_offset
                        (first_at_or_after consumer p ts))).
Proof.
  intros ts result. unfold result.
  rewrite set_offsets_by_time_aiokafka_unfold. fold ts.
  set (keys := PyDict.keys
                 (fold_left
                    (fun d part => PyDict.set TopicPartition_eqb d part ts)
                    assignment [])).
  assert (Hkeys : forall p, In p keys <-> In p assignment).
  { intros p. unfold keys. rewrite partition_to_timestamp_keys. simpl.
    tauto. }
  assert (Hall : Forall (fun p => first_at_or_after consumer p ts <> None) keys
                 <-> Forall (fun p => first_at_or_after consumer p ts <> None)
                       assignment).
  { rewrite !Forall_forall. split; intros H p Hp; apply H, Hkeys, Hp. }
  destruct (seek_each_by_key consumer ts keys consumer) as [Hr Hf]. split.
  - intros H. apply Hall in H. destruct (Hr H) as (c' & E & Hp).
    exists c'. split; [exact E|]. intros p. rewrite <- Hkeys. apply Hp.
  - intros H. rewrite <- Hall in H. destruct (Hf H) as (c' & E & Hp).
    exists c'. split; [exact E|]. intros p. rewrite <- Hkeys. apply Hp.
Qed.

(** X15. When [set_offsets_by_time] returns, the cursor of every partition of
    the subscribed topics is at the earliest record of the partition at or
    after the time, and every other cursor is where it was. *)
Theorem set_offsets_by_time_seeks_first_record (local_midnight : UTCDateTime)
  (consumer consumer' : KafkaConsumer) (start_time : option UTCDateTime)
  (p : TopicPartition) :
  set_offsets_by_time local_midnight consumer start_time = Returned consumer' ->
  let ts := start_timestamp_ms local_midnight start_time in
  (In p (subscribed_partitions consumer) ->
   exists record,
     first_at_or_after consumer p ts = Some record
     /\ position consumer' p = Some (oat_offset record))
  /\ (~ In p (subscribed_partitions consumer) ->
      position consumer' p = position consumer p).
Proof.
  intros E ts. rewrite set_offsets_by_time_unfold in E.
  destruct (seek_by_time_outcome local_midnight consumer
              (subscribed_partitions consumer) start_time) as [Hr Hf].
  fold ts in Hr, Hf.
  destruct (has_record_dec consumer ts (subscribed_partitions consumer))
    as [Hall|Hnot].
  - destruct (Hr Hall) as (c' & E' & Hp). rewrite E in E'.
    injection E' as <-. destruct (Hp p) as [Hin Hout]. split; [|exact Hout].
    intros Hp'. rewrite Forall_forall in Hall. specialize (Hall p Hp').
    destruct (first_at_or_after consumer p ts) as [record|] eqn:Er;
      [|congruence].
    exists record. split; [reflexivity|]. rewrite (Hin Hp'). reflexivity.
  - destruct (Hf Hnot) as (c' & E' & _). rewrite E in E'. discriminate.
Qed.

(** X16. When [set_offsets_by_time] is left by an exception, no cursor is at
    a wrong place: each is where it was before the call, or belongs to a
    partition of the subscribed topics and is at that partition's earliest
    record at or after the time. *)
Theorem set_offsets_by_time_raise_leaves_cursors_right
  (local_midnight : UTCDateTime) (consumer consumer' : KafkaConsumer)
  (start_time : option UTCDateTime) (e : exn) (p : TopicPartition) :
  set_offsets_by_time local_midnight consumer start_time = Raised e consumer' ->
  let ts := start_timestamp_ms local_midnight start_time in
  position consumer' p = position consumer p
  \/ (In p (subscribed_partitions consumer)
      /\ exists record,
           first_at_or_after consumer p ts = Some record
           /\ position consumer' p = Some (oat_offset record)).
Proof.
  intros E ts. rewrite set_offsets_by_time_unfold in E.
  destruct (seek_by_time_outcome local_midnight consumer
              (subscribed_partitions consumer) start_time) as [Hr Hf].
  fold ts in Hr, Hf.
  destruct (has_record_dec consumer ts (subscribed_partitions consumer))
    as [Hall|Hnot].
  - destruct (Hr Hall) as (c' & E' & _). rewrite E in E'. discriminate.
  - destruct (Hf Hnot) as (c' & E' & Hp). rewrite E in E'.
    injection E' as _ <-. destruct (Hp p) as [Hsame|(Hin & Hsome & Hpos)];
      [left; exact Hsame|right].
    split; [exact Hin|].
    destruct (first_at_or_after consumer p ts) as [record|]; [|congruence].
    exists record. split; [reflexivity|exact Hpos].
Qed.

(** X17. With nothing to seek, because no topic is subscribed or because the
    cluster has metadata for none of the subscribed topics, the call returns
    and the consumer is as it was. *)
Theorem set_offsets_by_time_nothing_to_seek (local_midnight : UTCDateTime)
  (consumer : KafkaConsumer) (start_time : option UTCDateTime) :
  subscribed_partitions consumer = [] ->
  set_offsets_by_time local_midnight consumer start_time = Returned consumer.
Proof.
  intros H. rewrite set_offsets_by_time_unfold, H. reflexivity.
Qed.

(** X18. The seeker for aiokafka does to the partitions assigned what
    [set_offsets_by_time] does to those of the subscribed topics: it returns
    exactly when each holds a record at or after the time, with each cursor
    then at that record and the others untouched, and raises otherwise. *)
Theorem set_offsets_by_time_aiokafka_spec (local_midnight : UTCDateTime)
  (consumer : KafkaConsumer) (assignment : list TopicPartition)
  (start_time : option UTCDateTime) :
  let ts := start_timestamp_ms local_midnight start_time in
  let result :=
    set_offsets_by_time_aiokafka local_midnight consumer assignment
      start_time in
  let every_partition_has_a_record :=
    Forall (fun p => first_at_or_after consumer p ts <> None) assignment in
  (every_partition_has_a_record ->
   exists c', result = Returned c'
     /\ forall p,
          (In p assignment ->
           position c' p
           = option_map oat_offset (first_at_or_after consumer p ts))
          /\ (~ In p assignment -> position c' p = position consumer p))
  /\ (~ every_partition_has_a_record ->
      exists c', result = Raised TypeError c')
  /\ set_offsets_by_time local_midnight consumer start_time
     = set_offsets_by_time_aiokafka local_midnight consumer
         (subscribed_partitions consumer) start_time.
Proof.
  intros ts result P.
  destruct (seek_by_time_outcome local_midnight consumer assignment
              start_time) as [Hr Hf].
  split; [exact Hr|split].
  - intros H. destruct (Hf H) as (c' & E & _). eauto.
  - apply set_offsets_by_time_unfold.
Qed.

(** * Properties of the names *)

Lemma isupper_lower (c : ascii) :
  isupper c = true ->
  isupper (lower c) = false
  /\ Ascii.eqb (lower c) "_"%char = false
  /\ (nat_of_ascii (lower c) <? 128)%nat = true
  /\ Ascii.eqb c "_"%char = false.
Proof.
  destruct c as [[] [] [] [] [] [] [] []]; vm_compute;
    intros H; try discriminate H; repeat split.
Qed.

Lemma underscore_capitals_app (a b : string) :
  underscore_capitals (a ++ b)%string
  = (underscore_capitals a ++ underscore_capitals b)%string.
Proof.
  induction a as [|c r IH]; simpl; [reflexivity|].
  destruct (isupper c); simpl; rewrite IH; reflexivity.
Qed.

Lemma underscore_capitals_no_capital (name : string) :
  isascii name = true ->
  no_capital (underscore_capitals name) = true
  /\ isascii (underscore_capitals name) = true.
Proof.
  induction name as [|c r IH]; simpl; [tauto|].
  rewrite andb_true_iff. intros [Hc Hr]. destruct (IH Hr) as [IH1 IH2].
  destruct (isupper c) eqn:U; simpl.
  - destruct (isupper_lower c U) as (H1 & _ & H3 & _).
    rewrite H1, H3, IH1, IH2. split; reflexivity.
  - rewrite U, Hc, IH1, IH2. split; reflexivity.
Qed.

Lemma lstrip_underscores_keeps (s : string) :
  (no_capital s = true -> no_capital (lstrip_underscores s) = true)
  /\ (isascii s = true -> isascii (lstrip_underscores s) = true)
  /\ starts_with_underscore (lstrip_underscores s) = false.
Proof.
  induction s as [|c r IH]; simpl; [tauto|].
  destruct (Ascii.eqb c "_"%char) eqn:E.
  - rewrite !andb_true_iff. tauto.
  - simpl. rewrite E. tauto.
Qed.

Lemma underscore_capitals_fixed (s : string) :
  no_capital s = true -> underscore_capitals s = s.
Proof.
  induction s as [|c r IH]; simpl; [reflexivity|].
  rewrite andb_true_iff, negb_true_iff. intros [-> Hr].
  rewrite IH by exact Hr. reflexivity.
Qed.

Lemma lstrip_underscores_fixed (s : string) :
  starts_with_underscore s = false -> lstrip_underscores s = s.
Proof. destruct s as [|c r]; simpl; [reflexivity|]. intros ->. reflexivity. Qed.

(** X19. The result of [camel_to_snake] on an ASCII name holds no capital
    letter and does not start with an underscore. *)
Theorem camel_to_snake_shape (name : string) :
  isascii name = true ->
  no_capital (camel_to_snake name) = true
  /\ starts_with_underscore (camel_to_snake name) = false
  /\ isascii (camel_to_snake name) = true.
Proof.
  intros H. unfold camel_to_snake.
  destruct (underscore_capitals_no_capital name H) as [H1 H2].
  destruct (lstrip_underscores_keeps (underscore_capitals name))
    as (K1 & K2 & K3).
  auto.
Qed.

(** X20. [camel_to_snake] is idempotent on ASCII names: converting a
    converted name changes nothing. *)
Theorem camel_to_snake_idempotent (name : string) :
  isascii name = true ->
  camel_to_snake (camel_to_snake name) = camel_to_snake name.
Proof.
  intros H. unfold camel_to_snake at 1.
  destruct (underscore_capitals_no_capital name H) as [H1 _].
  destruct (lstrip_underscores_keeps (underscore_capitals name))
    as (K1 & _ & K3).
  rewrite underscore_capitals_fixed by (apply K1, H1).
  apply lstrip_underscores_fixed, K3.
Qed.

(** X21. A name that is already in snake case, with no capital and no leading
    underscore, is returned as it is. *)
Theorem camel_to_snake_keeps_snake_names (name : string) :
  isascii name = true ->
  no_capital name = true ->
  starts_with_underscore name = false ->
  camel_to_snake name = name.
Proof.
  intros _ Hn Hs. unfold camel_to_snake.
  rewrite underscore_capitals_fixed by exact Hn.
  apply lstrip_underscores_fixed, Hs.
Qed.

(** X22. The conversion cannot be undone: a capital anywhere in a name and an
    underscore followed by its lower case give the same result, and so does
    a name with or without an underscore in front. *)
Theorem camel_to_snake_merges_names (a b : string) (c : ascii) :
  isascii (a ++ String c b)%string = true ->
  isupper c = true ->
  camel_to_snake (a ++ String c b)%string
  = camel_to_snake (a ++ String "_"%char (String (lower c) b))%string
  /\ camel_to_snake (String "_"%char (a ++ String c b)%string)
     = camel_to_snake (a ++ String c b)%string.
Proof.
  intros _ U. unfold camel_to_snake. split.
  - rewrite !underscore_capitals_app. simpl. rewrite U.
    destruct (isupper_lower c U) as (-> & _).
    reflexivity.
  - reflexivity.
Qed.

(** * Properties of the handlers *)

Lemma string_app_assoc (a b c : string) :
  ((a ++ b) ++ c)%string = (a ++ (b ++ c))%string.
Proof. induction a as [|x r IH]; simpl; [reflexivity|]. rewrite IH. reflexivity. Qed.

Lemma string_app_nil_r (a : string) : (a ++ "")%string = a.
Proof. induction a as [|x r IH]; simpl; [reflexivity|]. rewrite IH. reflexivity. Qed.

Lemma string_length_app (a b : string) :
  String.length (a ++ b)%string = (String.length a + String.length b)%nat.
Proof. induction a as [|x r IH]; simpl; [reflexivity|]. rewrite IH. reflexivity. Qed.

Lemma string_app_inv_head (a b c : string) :
  (a ++ b)%string = (a ++ c)%string -> b = c.
Proof.
  induction a as [|x r IH]; simpl; intros H; [exact H|].
  injection H as H. apply IH, H.
Qed.

Lemma string_app_inv_tail (a b c : string) :
  (a ++ c)%string = (b ++ c)%string -> a = b.
Proof.
  revert b. induction a as [|x r IH]; intros [|y s] H; simpl in H.
  - reflexivity.
  - exfalso. apply (f_equal String.length) in H. simpl in H.
    rewrite string_length_app in H. lia.
  - exfalso. apply (f_equal String.length) in H. simpl in H.
    rewrite string_length_app in H. lia.
  - injection H as -> H. f_equal. apply IH, H.
Qed.

Lemma read_append_file (fs : FileSystem) (path text other : string) :
  read_file (append_file fs path text) other
  = if String.eqb path other then (read_file fs path ++ text)%string
    else read_file fs other.
Proof.
  unfold read_file at 1. unfold append_file.
  destruct (String.eqb_spec path other) as [<-|Hne].
  - rewrite get_set_same. reflexivity.
  - rewrite get_set_other by congruence. reflexivity.
Qed.

Section HandlerFacts.
Context {fmt : TickerFormat}.

(** X23. The Kafka handler constructs its producer when it first needs one
    and never again: a call constructs it once when the handler had none and
    a ticker got as far as the send, and not at all otherwise; every send
    finds a producer; and the handler keeps the producer and the topic. *)
Theorem kafka_handler_creates_producer_once (self : RawTickerKafkaHandler)
  (tickers : list Ticker) :
  let '(status, self', tr) := kafka_handler_call self tickers in
  producers_created tr
  = (if negb (kh_has_producer self) && kh_has_producer self' then 1 else 0)%nat
  /\ kh_has_producer self'
     = (kh_has_producer self
        || match records_sent tr with [] => false | _ => true end)
  /\ producer_ready (kh_has_producer self) tr = true
  /\ kh_topic self' = kh_topic self.
Proof.
  revert self. induction tickers as [|t rest IH]; intros self; simpl.
  - rewrite orb_false_r. destruct (kh_has_producer self); repeat split.
  - unfold to_kafka. destruct (tk_contract t) as [c|].
    + specialize (IH (mkRawTickerKafkaHandler (kh_topic self) true)).
      destruct (kafka_handler_call
                  (mkRawTickerKafkaHandler (kh_topic self) true) rest)
        as [[status self2] tr2].
      simpl in IH. destruct IH as (I1 & I2 & I3 & I4).
      unfold producers_created in *. unfold records_sent.
      rewrite I2. destruct (kh_has_producer self); simpl in *;
        rewrite ?I1, ?I3; repeat split; assumption.
    + rewrite orb_false_r. destruct (kh_has_producer self); repeat split.
Qed.

(** X24. A call of the Kafka handler sends one record for each ticker up to
    the first one without a contract, in the order of the tickers, each on
    the handler's topic with the symbol as key; it runs to its end when all
    tickers have a contract and fails its assertion otherwise, the tickers
    after the one without a contract never being sent. *)
Theorem kafka_handler_call_spec (self : RawTickerKafkaHandler)
  (tickers : list Ticker) :
  let '(status, self', tr) := kafka_handler_call self tickers in
  status = (if forallb has_contract tickers then Completed else AssertionFailed)
  /\ records_sent tr = records_of (kh_topic self) (contract_prefix tickers).
Proof.
  revert self. induction tickers as [|t rest IH]; intros self; simpl.
  - split; reflexivity.
  - unfold to_kafka, has_contract. destruct (tk_contract t) as [c|] eqn:Ec.
    + specialize (IH (mkRawTickerKafkaHandler (kh_topic self) true)).
      destruct (kafka_handler_call
                  (mkRawTickerKafkaHandler (kh_topic self) true) rest)
        as [[status self2] tr2].
      simpl in IH. destruct IH as [I1 I2]. split; [exact I1|].
      unfold records_sent in *. rewrite !flat_map_app, I2. simpl.
      rewrite Ec. destruct (kh_has_producer self); reflexivity.
    + split; reflexivity.
Qed.

(** X25. The file handler gives every symbol a file of its own: under one
    handler and one date, two different symbols have different file names. *)
Theorem filename_distinguishes_symbols (today : string)
  (self : RawTickerFileHandler) (s1 s2 : string) :
  s1 <> s2 -> _get_filename today self s1 <> _get_filename today self s2.
Proof.
  intros Hne H. apply Hne. unfold _get_filename in H.
  apply string_app_inv_head in H. apply string_app_inv_head in H.
  apply string_app_inv_head in H. apply string_app_inv_head in H.
  apply string_app_inv_tail in H. exact H.
Qed.

(** X26. A call of the file handler only adds text at the end of files: the
    text of every file afterwards is its text before followed by the lines
    of the tickers written to it, in their order, which are the tickers up
    to the first one without a contract; a file no ticker is written to is
    as it was. The call runs to its end when all tickers have a contract and
    fails its assertion otherwise. *)
Theorem file_handler_call_spec (today : string) (self : RawTickerFileHandler)
  (fs : FileSystem) (tickers : list Ticker) (path : string) :
  let '(status, fs') := file_handler_call today self fs tickers in
  status = (if forallb has_contract tickers then Completed else AssertionFailed)
  /\ read_file fs' path
     = (read_file fs path
        ++ lines_for today self path (contract_prefix tickers))%string.
Proof.
  revert fs. induction tickers as [|t rest IH]; intros fs; simpl.
  - rewrite string_app_nil_r. split; reflexivity.
  - unfold has_contract. destruct (tk_contract t) as [c|] eqn:Ec.
    + specialize (IH (append_file fs (_get_filename today self (symbol c))
                        (str_of_ticker t ++ String "010"%char "")%string)).
      destruct (file_handler_call today self _ rest) as [status fs'].
      destruct IH as [I1 I2]. split; [exact I1|].
      rewrite I2, read_append_file. simpl. rewrite Ec.
      destruct (String.eqb_spec (_get_filename today self (symbol c)) path)
        as [->|Hne].
      * rewrite !string_app_assoc. reflexivity.
      * reflexivity.
    + rewrite string_app_nil_r. split; reflexivity.
Qed.

End HandlerFacts.

(** * Properties of the key codec *)

Ltac split_tests :=
  repeat match goal with
  | H : context [Z.leb ?a ?b] |- _ => destruct (Z.leb_spec a b); try lia
  | H : context [Z.ltb ?a ?b] |- _ => destruct (Z.ltb_spec a b); try lia
  | |- context [Z.leb ?a ?b] => destruct (Z.leb_spec a b); try lia
  | |- context [Z.ltb ?a ?b] => destruct (Z.ltb_spec a b); try lia
  end.

Lemma bytes2str_cons (b0 : Z) (r0 : list Z) :
  bytes2str (b0 :: r0)
  = if (0 <=? b0) && (b0 <? 0x80) then option_map (cons b0) (bytes2str r0)
      else if (0xC2 <=? b0) && (b0 <=? 0xDF) then
        match r0 with
        | b1 :: r1 =>
            if continuation b1
            then option_map (cons ((b0 - 0xC0) * 64 + (b1 - 0x80)))
                   (bytes2str r1)
            else None
        | _ => None
        end
      else if (0xE0 <=? b0) && (b0 <=? 0xEF) then
        match r0 with
        | b1 :: b2 :: r2 =>
            let c := (b0 - 0xE0) * 4096 + (b1 - 0x80) * 64 + (b2 - 0x80) in
            if continuation b1 && continuation b2
               && (0x800 <=? c) && negb (is_surrogate c)
            then option_map (cons c) (bytes2str r2)
            else None
        | _ => None
        end
      else if (0xF0 <=? b0) && (b0 <=? 0xF4) then
        match r0 with
        | b1 :: b2 :: b3 :: r3 =>
            let c := (b0 - 0xF0) * 262144 + (b1 - 0x80) * 4096
                     + (b2 - 0x80) * 64 + (b3 - 0x80) in
            if continuation b1 && continuation b2 && continuation b3
               && (0x10000 <=? c) && (c <? 0x110000)
            then option_map (cons c) (bytes2str r3)
            else None
        | _ => None
        end
      else None.
Proof. reflexivity. Qed.

Lemma encode_code_point_scalar (c : Z) :
  encode_code_point c <> None <-> is_scalar_value c = true.
Proof.
  unfold encode_code_point, is_scalar_value, is_surrogate.
  split_tests; simpl; split; congruence.
Qed.

Ltac run_tests :=
  repeat (cbv beta iota zeta delta [andb negb];
          match goal with
          | |- context [Z.leb ?a ?b] => destruct (Z.leb_spec a b); try lia
          | |- context [Z.ltb ?a ?b] => destruct (Z.ltb_spec a b); try lia
          end);
  cbv beta iota zeta delta [andb negb].

Lemma decode_encode_code_point_cases (c : Z) (r : list Z) :
  match encode_code_point c with
  | Some bs => bytes2str (bs ++ r) = option_map (cons c) (bytes2str r)
  | None => True
  end.
Proof.
  unfold encode_code_point, is_surrogate.
  Z.div_mod_to_equations.
  run_tests; trivial;
    cbv beta iota delta [app]; rewrite bytes2str_cons;
    unfold continuation, is_surrogate;
    run_tests; do 2 f_equal; lia.
Qed.

Lemma decode_encode_code_point (c : Z) (bs r : list Z) :
  encode_code_point c = Some bs ->
  bytes2str (bs ++ r) = option_map (cons c) (bytes2str r).
Proof.
  intros H. generalize (decode_encode_code_point_cases c r).
  rewrite H. trivial.
Qed.

Lemma encode_code_point_bytes_cases (c : Z) :
  match encode_code_point c with
  | Some bs => forallb is_byte bs = true
  | None => True
  end.
Proof.
  unfold encode_code_point, is_surrogate.
  Z.div_mod_to_equations.
  run_tests; trivial;
    cbv beta iota delta [forallb is_byte]; run_tests; reflexivity.
Qed.

Lemma encode_code_point_bytes (c : Z) (bs : list Z) :
  encode_code_point c = Some bs -> forallb is_byte bs = true.
Proof.
  intros H. generalize (encode_code_point_bytes_cases c).
  rewrite H. trivial.
Qed.

Lemma bytes2str_str2bytes_cases (s : list Z) :
  if forallb is_scalar_value s
  then exists b, str2bytes s = Some b
         /\ forallb is_byte b = true
         /\ bytes2str b = Some s
  else str2bytes s = None.
Proof.
  induction s as [|c s IH]; simpl.
  - exists []. auto.
  - destruct (is_scalar_value c) eqn:Ec; simpl.
    + apply encode_code_point_scalar in Ec.
      destruct (encode_code_point c) as [bs|] eqn:Eb; [|congruence].
      destruct (forallb is_scalar_value s).
      * destruct IH as (b & -> & Hb & Hd).
        exists (bs ++ b). split; [reflexivity|]. split.
        -- rewrite forallb_app, Hb, (encode_code_point_bytes c bs Eb).
           reflexivity.
        -- rewrite (decode_encode_code_point c bs b Eb), Hd. reflexivity.
      * rewrite IH. reflexivity.
    + destruct (encode_code_point c) eqn:Eb; [|reflexivity].
      assert (is_scalar_value c = true)
        by (apply encode_code_point_scalar; congruence).
      congruence.
Qed.

(** X27. A key survives the way through Kafka: [str2bytes] encodes every
    string that holds no surrogate code point, into bytes, and [bytes2str]
    gives the string back from them; on a string that holds a surrogate
    [str2bytes] raises. *)
Theorem bytes2str_after_str2bytes (s : list Z) :
  (forallb is_scalar_value s = true ->
   exists b, str2bytes s = Some b
     /\ forallb is_byte b = true
     /\ bytes2str b = Some s)
  /\ (forallb is_scalar_value s = false -> str2bytes s = None).
Proof.
  generalize (bytes2str_str2bytes_cases s).
  destruct (forallb is_scalar_value s); intros H; split; intros E;
    try discriminate; exact H.
Qed.

Ltac run_tests_in H :=
  repeat (cbv beta iota zeta delta [andb negb] in H;
          match type of H with
          | context [Z.leb ?a ?b] => destruct (Z.leb_spec a b); try lia
          | context [Z.ltb ?a ?b] => destruct (Z.ltb_spec a b); try lia
          end);
  cbv beta iota zeta delta [andb negb] in H.

Lemma encode_code_point_1 (b0 : Z) :
  0 <= b0 < 0x80 -> encode_code_point b0 = Some [b0].
Proof.
  intros H. unfold encode_code_point. run_tests. reflexivity.
Qed.

Lemma encode_code_point_2 (b0 b1 : Z) :
  0xC2 <= b0 <= 0xDF -> 0x80 <= b1 <= 0xBF ->
  encode_code_point ((b0 - 0xC0) * 64 + (b1 - 0x80)) = Some [b0; b1].
Proof.
  intros H0 H1. unfold encode_code_point, is_surrogate.
  Z.div_mod_to_equations. run_tests. repeat f_equal; lia.
Qed.

Lemma encode_code_point_3 (b0 b1 b2 : Z) :
  let c := (b0 - 0xE0) * 4096 + (b1 - 0x80) * 64 + (b2 - 0x80) in
  0xE0 <= b0 <= 0xEF -> 0x80 <= b1 <= 0xBF -> 0x80 <= b2 <= 0xBF ->
  0x800 <= c -> is_surrogate c = false ->
  encode_code_point c = Some [b0; b1; b2].
Proof.
  intros c H0 H1 H2 Hc Hs. unfold encode_code_point. rewrite Hs.
  subst c. clear Hs.
  Z.div_mod_to_equations. run_tests. repeat f_equal; lia.
Qed.

Lemma encode_code_point_4 (b0 b1 b2 b3 : Z) :
  let c := (b0 - 0xF0) * 262144 + (b1 - 0x80) * 4096
           + (b2 - 0x80) * 64 + (b3 - 0x80) in
  0xF0 <= b0 <= 0xF4 -> 0x80 <= b1 <= 0xBF -> 0x80 <= b2 <= 0xBF ->
  0x80 <= b3 <= 0xBF -> 0x10000 <= c < 0x110000 ->
  encode_code_point c = Some [b0; b1; b2; b3].
Proof.
  intros c H0 H1 H2 H3 Hc. unfold encode_code_point, is_surrogate.
  subst c.
  Z.div_mod_to_equations. run_tests. repeat f_equal; lia.
Qed.

Lemma option_map_cons_Some (c : Z) (o : option (list Z)) (s : list Z) :
  option_map (cons c) o = Some s -> exists s', o = Some s' /\ s = c :: s'.
Proof.
  destruct o as [s'|]; simpl; [|discriminate].
  intros H. injection H as <-. eauto.
Qed.

Lemma str2bytes_bytes2str_bounded (n : nat) :
  forall b s, (List.length b <= n)%nat ->
    bytes2str b = Some s -> str2bytes s = Some b.
Proof.
  induction n as [|n IH]; intros b s Hn H.
  - destruct b; [|simpl in Hn; lia]. simpl in H. injection H as <-.
    reflexivity.
  - destruct b as [|b0 r0].
    { simpl in H. injection H as <-. reflexivity. }
    rewrite bytes2str_cons in H. simpl in Hn.
    destruct ((0 <=? b0) && (b0 <? 0x80)) eqn:T1.
    { apply option_map_cons_Some in H. destruct H as (s' & Hs' & ->).
      apply IH in Hs'; [|lia].
      simpl. rewrite encode_code_point_1, Hs'; [reflexivity|].
      run_tests_in T1; try discriminate; try lia. }
    destruct ((0xC2 <=? b0) && (b0 <=? 0xDF)) eqn:T2.
    { destruct r0 as [|b1 r1]; [discriminate|].
      destruct (continuation b1) eqn:C1; [|discriminate].
      apply option_map_cons_Some in H. destruct H as (s' & Hs' & ->).
      simpl in Hn. apply IH in Hs'; [|lia].
      simpl. rewrite encode_code_point_2, Hs'; [reflexivity| |].
      - run_tests_in T2; try discriminate; try lia.
      - unfold continuation in C1. run_tests_in C1; try discriminate; try lia. }
    destruct ((0xE0 <=? b0) && (b0 <=? 0xEF)) eqn:T3.
    { destruct r0 as [|b1 [|b2 r2]]; try discriminate.
      cbv zeta in H.
      destruct (continuation b1) eqn:C1; [|discriminate].
      destruct (continuation b2) eqn:C2; [|discriminate].
      cbv beta iota delta [andb] in H.
      destruct (0x800 <=? _) eqn:L in H; [|discriminate].
      destruct (is_surrogate _) eqn:S in H; [discriminate|].
      cbv beta iota delta [andb negb] in H.
      apply option_map_cons_Some in H. destruct H as (s' & Hs' & ->).
      simpl in Hn. apply IH in Hs'; [|lia].
      cbn [str2bytes]. rewrite encode_code_point_3, Hs'; try reflexivity;
        try assumption.
      - run_tests_in T3; try discriminate; try lia.
      - unfold continuation in C1. run_tests_in C1; try discriminate; try lia.
      - unfold continuation in C2. run_tests_in C2; try discriminate; try lia.
      - apply Z.leb_le. exact L. }
    destruct ((0xF0 <=? b0) && (b0 <=? 0xF4)) eqn:T4; [|discriminate].
    destruct r0 as [|b1 [|b2 [|b3 r3]]]; try discriminate.
    cbv zeta in H.
    destruct (continuation b1) eqn:C1; [|discriminate].
    destruct (continuation b2) eqn:C2; [|discriminate].
    destruct (continuation b3) eqn:C3; [|discriminate].
    cbv beta iota delta [andb] in H.
    destruct (0x10000 <=? _) eqn:L in H; [|discriminate].
    destruct (_ <? 0x110000) eqn:U in H; [|discriminate].
    cbv beta iota delta [andb negb] in H.
    apply option_map_cons_Some in H. destruct H as (s' & Hs' & ->).
    simpl in Hn. apply IH in Hs'; [|lia].
    cbn [str2bytes]. rewrite encode_code_point_4, Hs'; try reflexivity.
    + run_tests_in T4; try discriminate; try lia.
    + unfold continuation in C1. run_tests_in C1; try discriminate; try lia.
    + unfold continuation in C2. run_tests_in C2; try discriminate; try lia.
    + unfold continuation in C3. run_tests_in C3; try discriminate; try lia.
    + apply Z.leb_le in L. apply Z.ltb_lt in U. lia.
Qed.

(** X28. [bytes2str] accepts one spelling of a string only: bytes it decodes
    are bytes indeed, the string decoded holds no surrogate, and [str2bytes]
    of that string gives the same bytes again. *)
Theorem str2bytes_after_bytes2str (b s : list Z) :
  bytes2str b = Some s ->
  str2bytes s = Some b /\ forallb is_scalar_value s = true
  /\ forallb is_byte b = true.
Proof.
  intros H.
  assert (E : str2bytes s = Some b)
    by (apply (str2bytes_bytes2str_bounded (List.length b)); auto).
  generalize (bytes2str_str2bytes_cases s).
  destruct (forallb is_scalar_value s).
  - intros (b' & Hb' & Hbytes & _). rewrite E in Hb'. injection Hb' as <-.
    auto.
  - rewrite E. discriminate.
Qed.

(** * The further properties at work *)

Lemma other_tickers_untouched_witness :
  Forall (fun m => rt_symbol m <> "C") [event_A5; event_B3]
  /\ PyDict.get String.eqb
       (tickers (fst (run_ABC engine_ABC [event_A5; event_B3]))) "C"
     = Some (@new_ticker deviation stock_C).
Proof.
  assert (H : Forall (fun m => rt_symbol m <> "C") [event_A5; event_B3])
    by (repeat constructor; discriminate).
  split; [exact H|].
  unfold run_ABC.
  rewrite (@other_tickers_untouched weekday_calendar deviation engine_ABC
             [event_A5; event_B3] "C" H).
  reflexivity.
Defined.

Lemma bypass_ignores_the_calendar_witness :
  _bypass_update_window engine_ABC = true
  /\ run_ABC engine_ABC events_ABC
     = @consume closed_calendar deviation engine_ABC events_ABC.
Proof.
  split; [reflexivity|].
  apply (bypass_ignores_the_calendar weekday_calendar closed_calendar
           deviation engine_ABC events_ABC eq_refl).
Defined.

Lemma successive_sends_differ_witness :
  sent_on TOP_HIGH_EVENT (snd (run_ABC engine_ABC events_ABC))
  = [] ++ mkTopNSymbols friday_1500 [mkTopSymbol "A" 5]
       :: mkTopNSymbols (friday_1500 + 1)
            [mkTopSymbol "B" 3; mkTopSymbol "A" 5]
       :: []
  /\ TopNSymbols_eqb
       (mkTopNSymbols (friday_1500 + 1) [mkTopSymbol "B" 3; mkTopSymbol "A" 5])
       (mkTopNSymbols friday_1500 [mkTopSymbol "A" 5])
     = false.
Proof.
  assert (H : sent_on TOP_HIGH_EVENT (snd (run_ABC engine_ABC events_ABC))
              = [] ++ mkTopNSymbols friday_1500 [mkTopSymbol "A" 5]
                   :: mkTopNSymbols (friday_1500 + 1)
                        [mkTopSymbol "B" 3; mkTopSymbol "A" 5]
                   :: [])
    by reflexivity.
  split; [exact H|].
  apply (@successive_sends_differ weekday_calendar deviation TOP_HIGH_EVENT
           engine_ABC events_ABC [] [] _ _ H).
Defined.

Lemma no_symbol_on_both_sides_witness :
  In (mkTopSymbol "B" 3)
    (tns_symbols (get_top_n_tickers 0 (rank_tickers engine_mixed) 2))
  /\ In (mkTopSymbol "C" (-7))
       (tns_symbols (get_bottom_n_tickers 0 (rank_tickers engine_mixed) 2))
  /\ ts_symbol (mkTopSymbol "B" 3) <> ts_symbol (mkTopSymbol "C" (-7)).
Proof.
  assert (Ha : In (mkTopSymbol "B" 3)
                 (tns_symbols
                    (get_top_n_tickers 0 (rank_tickers engine_mixed) 2)))
    by (left; reflexivity).
  assert (Hb : In (mkTopSymbol "C" (-7))
                 (tns_symbols
                    (get_bottom_n_tickers 0 (rank_tickers engine_mixed) 2)))
    by (left; reflexivity).
  split; [exact Ha|split; [exact Hb|]].
  apply (@no_symbol_on_both_sides weekday_calendar deviation
           [stock_A; stock_B; stock_C] 0 0 2 2 true _ 0 2 2 _ _ Ha Hb).
Defined.

Lemma update_window_within_core_minutes_witness :
  0 <= bake_in_minutes engine_windowed
  /\ 0 <= bake_out_minutes engine_windowed
  /\ @inside_update_window weekday_calendar engine_windowed friday_1500 = true
  /\ @is_core_market_minutes weekday_calendar friday_1500 = true.
Proof.
  assert (Hi : 0 <= bake_in_minutes engine_windowed) by (simpl; lia).
  assert (Ho : 0 <= bake_out_minutes engine_windowed) by (simpl; lia).
  split; [exact Hi|split; [exact Ho|split; [reflexivity|]]].
  apply (proj1 (@update_window_within_core_minutes weekday_calendar
                  engine_windowed friday_1500 Hi Ho)).
  reflexivity.
Defined.

Lemma update_window_empty_when_bakes_cover_session_witness :
  @get_market_open_close weekday_calendar friday_1500
  = (Some (open_1430_friday), Some (close_2100_friday))
  /\ @inside_update_window weekday_calendar engine_overbaked friday_1500
     = false.
Proof.
  split; [reflexivity|].
  apply (@update_window_empty_when_bakes_cover_session weekday_calendar
           engine_overbaked friday_1500 open_1430_friday close_2100_friday
           eq_refl).
  vm_compute. discriminate.
Defined.

Lemma set_offsets_by_time_seeks_first_record_witness :
  set_offsets_by_time 0 consumer_one_partition (Some 1500000)
  = Returned (seek consumer_one_partition (raw_part 0) 1)
  /\ exists record,
       first_at_or_after consumer_one_partition (raw_part 0) 1500
       = Some record
       /\ position (seek consumer_one_partition (raw_part 0) 1) (raw_part 0)
          = Some (oat_offset record).
Proof.
  split; [reflexivity|].
  apply (set_offsets_by_time_seeks_first_record 0 consumer_one_partition
           (seek consumer_one_partition (raw_part 0) 1) (Some 1500000)
           (raw_part 0) eq_refl).
  left. reflexivity.
Defined.

Lemma set_offsets_by_time_raise_leaves_cursors_right_witness :
  set_offsets_by_time 0 consumer_two_partitions (Some 1500000)
  = Raised TypeError (seek consumer_two_partitions (raw_part 0) 1)
  /\ (position (seek consumer_two_partitions (raw_part 0) 1) (raw_part 1)
      = position consumer_two_partitions (raw_part 1)
      \/ (In (raw_part 1) (subscribed_partitions consumer_two_partitions)
          /\ exists record,
               first_at_or_after consumer_two_partitions (raw_part 1) 1500
               = Some record
               /\ position (seek consumer_two_partitions (raw_part 0) 1)
                    (raw_part 1)
                  = Some (oat_offset record))).
Proof.
  split; [reflexivity|].
  apply (set_offsets_by_time_raise_leaves_cursors_right 0
           consumer_two_partitions
           (seek consumer_two_partitions (raw_part 0) 1) (Some 1500000)
           TypeError (raw_part 1) eq_refl).
Defined.

Lemma set_offsets_by_time_nothing_to_seek_witness :
  subscribed_partitions consumer_without_metadata = []
  /\ set_offsets_by_time 0 consumer_without_metadata None
     = Returned consumer_without_metadata.
Proof.
  split; [reflexivity|].
  apply (set_offsets_by_time_nothing_to_seek 0 consumer_without_metadata None
           eq_refl).
Defined.

Lemma camel_to_snake_shape_witness :
  isascii "RawTickerKafkaHandler" = true
  /\ no_capital (camel_to_snake "RawTickerKafkaHandler") = true
  /\ starts_with_underscore (camel_to_snake "RawTickerKafkaHandler") = false
  /\ isascii (camel_to_snake "RawTickerKafkaHandler") = true.
Proof.
  split; [reflexivity|].
  apply (camel_to_snake_shape "RawTickerKafkaHandler" eq_refl).
Defined.

Lemma camel_to_snake_idempotent_witness :
  isascii "HTTPServer" = true
  /\ camel_to_snake (camel_to_snake "HTTPServer") = "h_t_t_p_server".
Proof.
  split; [reflexivity|].
  rewrite (camel_to_snake_idempotent "HTTPServer" eq_refl). reflexivity.
Defined.

Lemma camel_to_snake_keeps_snake_names_witness :
  isascii "raw_ticker" = true
  /\ no_capital "raw_ticker" = true
  /\ starts_with_underscore "raw_ticker" = false
  /\ camel_to_snake "raw_ticker" = "raw_ticker".
Proof.
  repeat (split; [reflexivity|]).
  apply (camel_to_snake_keeps_snake_names "raw_ticker" eq_refl eq_refl
           eq_refl).
Defined.

Lemma camel_to_snake_merges_names_witness :
  isupper "T"%char = true
  /\ camel_to_snake "rawTicker" = camel_to_snake "raw_ticker"
  /\ camel_to_snake "_rawTicker" = camel_to_snake "rawTicker".
Proof.
  split; [reflexivity|].
  apply (camel_to_snake_merges_names "raw" "icker" "T"%char eq_refl eq_refl).
Defined.

Lemma filename_distinguishes_symbols_witness :
  "A" <> "B"
  /\ @_get_filename "20240102" file_handler "A"
     <> @_get_filename "20240102" file_handler "B".
Proof.
  assert (H : "A" <> "B") by discriminate.
  split; [exact H|].
  apply (filename_distinguishes_symbols "20240102" file_handler "A" "B" H).
Defined.

Lemma str2bytes_after_bytes2str_witness :
  bytes2str bytes_of_four = Some key_of_four
  /\ str2bytes key_of_four = Some bytes_of_four.
Proof.
  split; [reflexivity|].
  apply (str2bytes_after_bytes2str bytes_of_four key_of_four eq_refl).
Defined.
